(** * Job attempt history resolver (rest-server, models/v2/job-attempt.js)

    A shallow embedding of [encodeName], [healthCheck], [list] and [get],
    and the properties of these functions that the design document states.

    The module talks to three collaborators: the orchestrator (k8s) client,
    the elastic search client and the framework converter.  They are inputs
    of the embedding; every call made to a client is recorded in a trace so
    that "without contacting ..." is a statement about the trace. *)

From Stdlib Require Import ZArith List String Ascii Bool Lia Sorted.
Import ListNotations.

Local Open Scope string_scope.
Local Open Scope list_scope.
Local Open Scope Z_scope.

(** ** Strings

    A name is a [string]: a sequence of code units below 256 (the Latin-1
    range of JavaScript's UTF-16 code units). *)

Module JsString.

Definition code (c : ascii) : Z := Z.of_N (N_of_ascii c).

Definition ofCode (z : Z) : ascii := ascii_of_N (Z.to_N z).

(** [String.prototype.startsWith]. *)
Fixpoint startsWith (s p : string) {struct p} : bool :=
  match p, s with
  | EmptyString, _ => true
  | String _ _, EmptyString => false
  | String a p', String b s' => Ascii.eqb a b && startsWith s' p'
  end.

(** [String.prototype.includes], for a search string of any length. *)
Fixpoint includes (s p : string) : bool :=
  startsWith s p ||
  match s with
  | EmptyString => false
  | String _ s' => includes s' p
  end.

Fixpoint drop (n : nat) (s : string) : string :=
  match n, s with
  | O, _ => s
  | S _, EmptyString => EmptyString
  | S n', String _ s' => drop n' s'
  end.

(** [s.replace(/^p/g, '')] for a literal [p]: the anchor lets the pattern
    match at offset 0 only, so at most one occurrence is removed. *)
Definition stripLeading (p s : string) : string :=
  if startsWith s p then drop (String.length p) s else s.

Definition isUpper (c : ascii) : bool :=
  let z := code c in
  ((65 <=? z) && (z <=? 90))
  || ((192 <=? z) && (z <=? 222) && negb (z =? 215)).

(** [String.prototype.toLowerCase] on one code unit: A-Z, and the
    upper-case letters of Latin-1 (U+00C0-U+00DE but the sign U+00D7). *)
Definition lowerChar (c : ascii) : ascii :=
  if isUpper c then ofCode (code c + 32) else c.

Fixpoint toLowerCase (s : string) : string :=
  match s with
  | EmptyString => EmptyString
  | String c s' => String (lowerChar c) (toLowerCase s')
  end.

Fixpoint filter (keep : ascii -> bool) (s : string) : string :=
  match s with
  | EmptyString => EmptyString
  | String c s' => if keep c then String c (filter keep s') else filter keep s'
  end.

Fixpoint all (p : ascii -> bool) (s : string) : bool :=
  match s with
  | EmptyString => true
  | String c s' => p c && all p s'
  end.

(** The class [[a-z0-9]]. *)
Definition isLowerAlnum (c : ascii) : bool :=
  let z := code c in
  ((97 <=? z) && (z <=? 122)) || ((48 <=? z) && (z <=? 57)).

(** The class [[0-9a-f]]. *)
Definition isHexDigit (c : ascii) : bool :=
  let z := code c in
  ((48 <=? z) && (z <=? 57)) || ((97 <=? z) && (z <=? 102)).

(** The UTF-8 bytes of a string, which is what a hash is fed with. *)
Fixpoint utf8 (s : string) : list Z :=
  match s with
  | EmptyString => []
  | String c s' =>
      let z := code c in
      if z <? 128 then z :: utf8 s'
      else Z.lor 192 (Z.shiftr z 6) :: Z.lor 128 (Z.land z 63) :: utf8 s'
  end.

End JsString.

(** ** MD5 ([crypto.createHash('md5')], RFC 1321) on 32-bit words held in [Z] *)

Module Md5.

Definition mask32 : Z := 4294967295.

Definition add32 (a b : Z) : Z := Z.land (a + b) mask32.

Definition not32 (a : Z) : Z := Z.lxor a mask32.

Definition rotl32 (x s : Z) : Z :=
  Z.lor (Z.land (Z.shiftl x s) mask32) (Z.shiftr x (32 - s)).

Definition K : list Z :=
  [ 3614090360; 3905402710; 606105819; 3250441966;
    4118548399; 1200080426; 2821735955; 4249261313;
    1770035416; 2336552879; 4294925233; 2304563134;
    1804603682; 4254626195; 2792965006; 1236535329;
    4129170786; 3225465664; 643717713; 3921069994;
    3593408605; 38016083; 3634488961; 3889429448;
    568446438; 3275163606; 4107603335; 1163531501;
    2850285829; 4243563512; 1735328473; 2368359562;
    4294588738; 2272392833; 1839030562; 4259657740;
    2763975236; 1272893353; 4139469664; 3200236656;
    681279174; 3936430074; 3572445317; 76029189;
    3654602809; 3873151461; 530742520; 3299628645;
    4096336452; 1126891415; 2878612391; 4237533241;
    1700485571; 2399980690; 4293915773; 2240044497;
    1873313359; 4264355552; 2734768916; 1309151649;
    4149444226; 3174756917; 718787259; 3951481745 ].

Definition shifts : list Z :=
  [ 7; 12; 17; 22; 7; 12; 17; 22; 7; 12; 17; 22; 7; 12; 17; 22;
    5; 9; 14; 20; 5; 9; 14; 20; 5; 9; 14; 20; 5; 9; 14; 20;
    4; 11; 16; 23; 4; 11; 16; 23; 4; 11; 16; 23; 4; 11; 16; 23;
    6; 10; 15; 21; 6; 10; 15; 21; 6; 10; 15; 21; 6; 10; 15; 21 ].

Record state := mkState { sa : Z; sb : Z; sc : Z; sd : Z }.

Definition init : state :=
  mkState 1732584193 4023233417 2562383102 271733878.

(** Message length in bits, as eight little-endian bytes. *)
Definition lengthBytes (bits : Z) : list Z :=
  map (fun i => Z.land (Z.shiftr bits (8 * Z.of_nat i)) 255) (seq 0 8).

Definition pad (msg : list Z) : list Z :=
  let n := Z.of_nat (List.length msg) in
  let zeros := Z.to_nat ((55 - n) mod 64) in
  msg ++ 128 :: repeat 0 zeros ++ lengthBytes (Z.land (8 * n) (2 ^ 64 - 1)).

Definition word (bs : list Z) : Z :=
  fold_right (fun b acc => b + 256 * acc) 0 bs.

Fixpoint words (n : nat) (bs : list Z) : list Z :=
  match n with
  | O => []
  | S n' => word (firstn 4 bs) :: words n' (skipn 4 bs)
  end.

Definition round (m : list Z) (st : state) (i : nat) : state :=
  let zi := Z.of_nat i in
  let '(mkState a b c d) := st in
  let q := (i / 16)%nat in
  let f :=
    match q with
    | 0%nat => Z.lor (Z.land b c) (Z.land (not32 b) d)
    | 1%nat => Z.lor (Z.land d b) (Z.land (not32 d) c)
    | 2%nat => Z.lxor b (Z.lxor c d)
    | _ => Z.lxor c (Z.lor b (not32 d))
    end in
  let g :=
    match q with
    | 0%nat => zi
    | 1%nat => (5 * zi + 1) mod 16
    | 2%nat => (3 * zi + 5) mod 16
    | _ => (7 * zi) mod 16
    end in
  let f' := add32 (add32 (add32 f a) (nth i K 0)) (nth (Z.to_nat g) m 0) in
  mkState d (add32 b (rotl32 f' (nth i shifts 0))) b c.

Definition compress (st : state) (block : list Z) : state :=
  let m := words 16 block in
  let '(mkState a b c d) := fold_left (round m) (seq 0 64) st in
  mkState (add32 (sa st) a) (add32 (sb st) b) (add32 (sc st) c) (add32 (sd st) d).

Fixpoint blocks (n : nat) (st : state) (bs : list Z) : state :=
  match n with
  | O => st
  | S n' => blocks n' (compress st (firstn 64 bs)) (skipn 64 bs)
  end.

Definition wordBytes (w : Z) : list Z :=
  map (fun i => Z.land (Z.shiftr w (8 * Z.of_nat i)) 255) (seq 0 4).

(** [.digest()]: the sixteen bytes of the final state. *)
Definition digest (msg : list Z) : list Z :=
  let p := pad msg in
  let st := blocks (List.length p / 64) init p in
  wordBytes (sa st) ++ wordBytes (sb st) ++ wordBytes (sc st) ++ wordBytes (sd st).

Definition hexDigit (n : Z) : ascii :=
  JsString.ofCode (if n <? 10 then 48 + n else 87 + n).

(** [.digest('hex')]: two lower-case hex digits per byte. *)
Fixpoint hex (bs : list Z) : string :=
  match bs with
  | [] => EmptyString
  | b :: bs' =>
      String (hexDigit (Z.shiftr (Z.land b 255) 4))
        (String (hexDigit (Z.land b 15)) (hex bs'))
  end.

Definition md5hex (s : string) : string := hex (digest (JsString.utf8 s)).

End Md5.

(** ** The name encoder (job-attempt.js, lines 35-48) *)

Definition convertName (name : string) : string :=
  JsString.filter JsString.isLowerAlnum (JsString.toLowerCase name).

Definition encodeName (name : string) : string :=
  if JsString.startsWith name "unknown" || negb (JsString.includes name "~")
  then convertName (JsString.stripLeading "unknown" name)
  else Md5.md5hex name.

(** ** JavaScript values, as far as the two guards of the module need them *)

Inductive jsval :=
| VUndefined
| VBool (b : bool)
| VStr (s : string)
| VFun (name : string).

(** [a === b]: values of different types are never equal. *)
Definition strictEq (a b : jsval) : bool :=
  match a, b with
  | VUndefined, VUndefined => true
  | VBool x, VBool y => Bool.eqb x y
  | VStr x, VStr y => String.eqb x y
  | VFun x, VFun y => String.eqb x y
  | _, _ => false
  end.

(** The truth value a condition takes ([ToBoolean]). *)
Definition truthy (v : jsval) : bool :=
  match v with
  | VUndefined => false
  | VBool b => b
  | VStr s => match s with EmptyString => false | String _ _ => true end
  | VFun _ => true
  end.

(** ** Data of the collaborators *)

(** A framework object: the orchestrator's live object, and equally the
    [objectSnapshot] of a historical document.  [metadata_uid] is [None]
    when [isNil] holds of it; [rest] stands for all other content. *)
Record Framework := mkFramework {
  metadata_uid : option string;
  spec_retryPolicy_maxRetryCount : Z;
  status_attemptStatus_id : Z;
  rest : string
}.

(** [response.data]: a framework, or a status object with a [message]. *)
Inductive Body :=
| FrameworkBody (f : Framework)
| StatusBody (message : option string).

Module Response.
Record t := mk { status : Z; data : Body }.
End Response.

(** An error object a client rejects with: [message] and, for an answered
    request, [response]. *)
Module JsError.
Record t := mk { message : string; response : option Response.t }.
End JsError.

Inductive Outcome (A : Type) :=
| Resolved (a : A)
| Rejected (e : JsError.t).
Arguments Resolved {A} a.
Arguments Rejected {A} e.

Definition Headers := list (string * string).

(** The search request of [list] and [get] (the [body] literals). *)
Inductive SortOrder := Asc | Desc.

Record TopHits := mkTopHits { sort_collectTime_order : SortOrder; top_size : nat }.

(** [aggs.attemptID_group]: [terms] on, or a [filter] by [term] of, the
    field 'objectSnapshot.status.attemptStatus.id'; both carry the inner
    aggregation [collectTime_latest_hits]. *)
Inductive Aggregation :=
| AggTerms (order_key : SortOrder) (collectTime_latest_hits : TopHits)
| AggFilter (term_value : Z) (collectTime_latest_hits : TopHits).

(** [query.bool.filter.term] is on 'objectSnapshot.metadata.uid.keyword'. *)
Record SearchBody := mkBody {
  query_bool_filter_term_uid : string;
  size : nat;
  aggs_attemptID_group : Aggregation
}.

Record SearchParams := mkParams { index : string; body : SearchBody }.

(** A historical document, and the answer to a search. *)
Record Doc := mkDoc { collectTime : Z; objectSnapshot : Framework }.

Record Hit := mkHit { source : Doc }.

Record Bucket := mkBucket { key : Z; doc_count : nat; bucket_hits : list Hit }.

(** [esResult.body.aggregations.attemptID_group]: the buckets of a terms
    aggregation, or the single bucket of a filter aggregation. *)
Inductive AggResult :=
| TermsResult (buckets : list Bucket)
| FilterResult (count : nat) (hits : list Hit).

Record EsClient := mkEsClient {
  cat_health : Outcome Z;                       (* the [statusCode] *)
  search : SearchParams -> Outcome AggResult
}.

(** What the module imports, and its module-level client handle
    ([undefined] when ELASTICSEARCH_URI is not set). *)
Record Env := mkEnv {
  launcherConfig_type : string;
  launcherConfig_frameworkPath : string -> string;
  launcherConfig_requestHeaders : Headers;
  k8s_get : string -> Headers -> Outcome Response.t;
  elasticSearchClient : option EsClient
}.

(** ** Effects: a trace of the calls made, and exceptions *)

Inductive LogLevel := LogWarn | LogError.

Inductive Event :=
| EvK8sGet (path : string) (headers : Headers)
| EvEsHealth
| EvEsSearch (p : SearchParams)
| EvLog (level : LogLevel).

Inductive Exn :=
| Thrown (e : JsError.t)                                  (* a client's rejection *)
| HttpError (status : Z) (code : string) (message : option string)  (* createError *)
| TypeError (what : string).                              (* a read on undefined *)

Inductive Result (A : Type) :=
| Return (a : A)
| Throw (e : Exn).
Arguments Return {A} a.
Arguments Throw {A} e.

Definition Trace := list Event.

Definition M (A : Type) : Type := Trace -> Trace * Result A.

Definition ret {A} (a : A) : M A := fun t => (t, Return a).

Definition throw {A} (e : Exn) : M A := fun t => (t, Throw e).

Definition bind {A B} (m : M A) (k : A -> M B) : M B :=
  fun t =>
    match m t with
    | (t', Return a) => k a t'
    | (t', Throw e) => (t', Throw e)
    end.

Definition tryCatch {A} (m : M A) (handler : Exn -> M A) : M A :=
  fun t =>
    match m t with
    | (t', Throw e) => handler e t'
    | r => r
    end.

Definition emit (ev : Event) : M unit := fun t => (t ++ [ev], Return tt).

(** [await p] for a promise that is already settled one way or the other. *)
Definition await {A} (o : Outcome A) : M A :=
  match o with
  | Resolved a => ret a
  | Rejected e => throw (Thrown e)
  end.

Notation "x <- m ;; k" := (bind m (fun x => k))
  (at level 61, m at next level, right associativity).
Notation "m ;;; k" := (bind m (fun _ => k))
  (at level 61, right associativity).

Fixpoint mapM {A B} (f : A -> M B) (items : list A) : M (list B) :=
  match items with
  | [] => ret []
  | item :: others =>
      y <- f item ;; ys <- mapM f others ;; ret (y :: ys)
  end.

Definition run {A} (m : M A) : Trace * Result A := m [].

(** [error.response] of whatever was caught. *)
Definition exnResponse (e : Exn) : option Response.t :=
  match e with
  | Thrown err => JsError.response err
  | _ => None
  end.

Definition bodyMessage (b : Body) : option string :=
  match b with
  | StatusBody m => m
  | FrameworkBody _ => None
  end.

(** The replies of [list] and [get]: [{status, data}], [data] nullable. *)
Module Reply.
Record t (D : Type) := mk { status : Z; data : option D }.
Arguments mk {D} status data.
Arguments status {D} t.
Arguments data {D} t.
End Reply.

(** [{...summary, isLatest}]. *)
Record Entry (S : Type) := mkEntry { summary : S; isLatest : bool }.
Arguments mkEntry {S} summary isLatest.
Arguments summary {S} e.
Arguments isLatest {S} e.

(** ** The module (job-attempt.js, lines 50-284) *)

Module JobAttempt.
Section Resolver.

(** [convertToJobAttempt] of '@pai/utils/frameworkConverter', and the
    summary type it produces. *)
Variable AttemptSummary : Type.
Variable convertToJobAttempt : Framework -> AttemptSummary.

Variable env : Env.

(** Lines 51-70. *)
Definition healthCheck : M bool :=
  if strictEq (VBool (strictEq (VStr (launcherConfig_type env)) (VStr "yarn")))
              (VStr "yarn")
  then ret false
  else
    match elasticSearchClient env with
    | None => ret false
    | Some client =>
        tryCatch
          (emit EvEsHealth ;;;
           statusCode <- await (cat_health client) ;;
           if statusCode =? 200 then ret true
           else emit (EvLog LogWarn) ;;; ret false)
          (fun e => emit (EvLog LogError) ;;; ret false)
    end.

(** Lines 83-97 of [list], which lines 191-205 of [get] repeat: the
    request to the k8s API, and what the [catch] makes of a rejection. *)
Definition getFramework (frameworkName : string) : M Response.t :=
  let path := launcherConfig_frameworkPath env (encodeName frameworkName) in
  let headers := launcherConfig_requestHeaders env in
  tryCatch
    (emit (EvK8sGet path headers) ;;; await (k8s_get env path headers))
    (fun error =>
       emit (EvLog LogError) ;;;
       match exnResponse error with
       | Some response => ret response
       | None => throw error
       end).

(** [await elasticSearchClient.search({index, body})]. *)
Definition esSearch (p : SearchParams) : M AggResult :=
  match elasticSearchClient env with
  | None => throw (TypeError "Cannot read property 'search' of undefined")
  | Some client => emit (EvEsSearch p) ;;; await (search client p)
  end.

Definition latestHits : TopHits := mkTopHits Desc 1.

(** The [body] of lines 118-153. *)
Definition listBody (uid : string) : SearchBody :=
  mkBody uid 0 (AggTerms Desc latestHits).

(** The [body] of lines 223-257. *)
Definition getBody (uid : string) (jobAttemptIndex : Z) : SearchBody :=
  mkBody uid 0 (AggFilter jobAttemptIndex latestHits).

(** [bucket.collectTime_latest_hits.hits.hits[0]._source.objectSnapshot]. *)
Definition firstSnapshot (bucket : Bucket) : M Framework :=
  match bucket_hits bucket with
  | [] => throw (TypeError "Cannot read property '_source' of undefined")
  | hit :: _ => ret (objectSnapshot (source hit))
  end.

(** Lines 73-181. *)
Definition list (frameworkName : string)
  : M (Reply.t (Datatypes.list (Entry AttemptSummary))) :=
  if negb (truthy (VFun "healthCheck")) then ret (Reply.mk 501 None)
  else
    response <- getFramework frameworkName ;;
    if Response.status response =? 200 then
      match Response.data response with
      | StatusBody _ => throw (TypeError "Cannot read property 'uid' of undefined")
      | FrameworkBody framework =>
          let uid := metadata_uid framework in
          let attemptData := [mkEntry (convertToJobAttempt framework) true] in
          match uid with
          | None => ret (Reply.mk 404 None)
          | Some uid =>
              esResult <- esSearch (mkParams "framework" (listBody uid)) ;;
              match esResult with
              | FilterResult _ _ => ret (Reply.mk 404 None)
              | TermsResult [] => ret (Reply.mk 404 None)
              | TermsResult buckets =>
                  retryFrameworks <- mapM firstSnapshot buckets ;;
                  let jobRetries := map convertToJobAttempt retryFrameworks in
                  ret (Reply.mk 200
                         (Some (attemptData
                                ++ map (fun jobRetry => mkEntry jobRetry false)
                                     jobRetries)))
              end
          end
      end
    else if Response.status response =? 404 then
      emit (EvLog LogWarn) ;;; ret (Reply.mk 404 None)
    else
      throw (HttpError (Response.status response) "UnknownError"
               (bodyMessage (Response.data response))).

(** Lines 183-284. *)
Definition get (frameworkName : string) (jobAttemptIndex : Z)
  : M (Reply.t (Entry AttemptSummary)) :=
  if negb (truthy (VFun "healthCheck")) then ret (Reply.mk 501 None)
  else
    response <- getFramework frameworkName ;;
    if Response.status response =? 200 then
      match Response.data response with
      | StatusBody _ => throw (TypeError "Cannot read property 'uid' of undefined")
      | FrameworkBody attemptFramework =>
          let uid := metadata_uid attemptFramework in
          if jobAttemptIndex <? spec_retryPolicy_maxRetryCount attemptFramework then
            match uid with
            | None => ret (Reply.mk 404 None)
            | Some uid =>
                esResult <-
                  esSearch (mkParams "framework" (getBody uid jobAttemptIndex)) ;;
                match esResult with
                | TermsResult _ =>
                    throw (TypeError "Cannot read property 'hits' of undefined")
                | FilterResult _ [] => ret (Reply.mk 404 None)
                | FilterResult _ (hit :: _) =>
                    let attemptFramework := objectSnapshot (source hit) in
                    let attemptDetail := convertToJobAttempt attemptFramework in
                    ret (Reply.mk 200 (Some (mkEntry attemptDetail false)))
                end
            end
          else if jobAttemptIndex =? spec_retryPolicy_maxRetryCount attemptFramework
          then
            let attemptDetail := convertToJobAttempt attemptFramework in
            ret (Reply.mk 200 (Some (mkEntry attemptDetail true)))
          else ret (Reply.mk 404 None)
      end
    else if Response.status response =? 404 then
      emit (EvLog LogWarn) ;;; ret (Reply.mk 404 None)
    else
      throw (HttpError (Response.status response) "UnknownError"
               (bodyMessage (Response.data response))).

End Resolver.
End JobAttempt.

(** ** The historical index

    The search client is an external service; [HistoryIndex.client] is the
    index over a given set of documents, answering the two request shapes
    above. *)

Module HistoryIndex.

Definition attemptOf (d : Doc) : Z := status_attemptStatus_id (objectSnapshot d).

Definition hasUid (uid : string) (d : Doc) : bool :=
  match metadata_uid (objectSnapshot d) with
  | Some v => String.eqb v uid
  | None => false
  end.

Definition before (o : SortOrder) (a b : Z) : bool :=
  match o with
  | Asc => a <=? b
  | Desc => b <=? a
  end.

Fixpoint insertBy {A} (k : A -> Z) (o : SortOrder) (x : A) (l : list A) : list A :=
  match l with
  | [] => [x]
  | y :: l' => if before o (k x) (k y) then x :: l else y :: insertBy k o x l'
  end.

Definition sortBy {A} (k : A -> Z) (o : SortOrder) (l : list A) : list A :=
  fold_right (insertBy k o) [] l.

Definition topHits (th : TopHits) (ds : list Doc) : list Hit :=
  map mkHit (firstn (top_size th) (sortBy collectTime (sort_collectTime_order th) ds)).

Definition termsDefaultSize : nat := 10.

Definition group (ds : list Doc) (id : Z) : list Doc :=
  filter (fun d => attemptOf d =? id) ds.

Definition keys (o : SortOrder) (ds : list Doc) : list Z :=
  firstn termsDefaultSize
    (sortBy (fun id => id) o (nodup Z.eq_dec (map attemptOf ds))).

Definition bucketOf (th : TopHits) (ds : list Doc) (id : Z) : Bucket :=
  mkBucket id (List.length (group ds id)) (topHits th (group ds id)).

(** Modelled from the spec: the historical index is not part of the
    sources; section 4.4 says how it answers.  The documents are filtered
    by uid.  A [terms] aggregation makes one bucket per distinct attempt
    identifier, ordered by key as the request asks, and returns the first
    [termsDefaultSize] of them, as the requests set no bucket count; a
    [filter] aggregation makes the one bucket of the given identifier.
    [top_hits] sorts a bucket's documents by [collectTime] as asked and
    keeps [size] of them. *)
Definition answer (docs : list Doc) (p : SearchParams) : AggResult :=
  let ds := filter (hasUid (query_bool_filter_term_uid (body p))) docs in
  match aggs_attemptID_group (body p) with
  | AggTerms o th => TermsResult (map (bucketOf th ds) (keys o ds))
  | AggFilter id th => FilterResult (List.length (group ds id)) (topHits th (group ds id))
  end.

(** A client whose health probe settles as [health] and whose searches
    are answered from [docs]. *)
Definition client (health : Outcome Z) (docs : list Doc) : EsClient :=
  mkEsClient health (fun p => Resolved (answer docs p)).

End HistoryIndex.

(** ** Sample deployments *)

Module Sample.

Definition frameworkPath (name : string) : string :=
  ("/apis/frameworkcontroller.microsoft.com/v1/namespaces/default/frameworks/" ++ name)%string.

Definition headers : Headers := [("Accept", "application/json")].

(** A job on its third attempt (two retries behind it). *)
Definition live : Framework := mkFramework (Some "uid-1") 3 2 "live".

Definition snapshot (id : Z) (note : string) : Framework :=
  mkFramework (Some "uid-1") 3 id note.

Definition docs : list Doc :=
  [ mkDoc 100 (snapshot 0 "attempt 0, early");
    mkDoc 110 (snapshot 0 "attempt 0, final");
    mkDoc 205 (snapshot 1 "attempt 1, final");
    mkDoc 200 (snapshot 1 "attempt 1, early");
    mkDoc 150 (mkFramework (Some "uid-2") 3 7 "another job") ].

Definition k8s (r : Outcome Response.t) : string -> Headers -> Outcome Response.t :=
  fun path _ =>
    if String.eqb path (frameworkPath (encodeName "alice~job")) then r
    else Resolved (Response.mk 404 (StatusBody (Some "not found"))).

Definition found (f : Framework) : Outcome Response.t :=
  Resolved (Response.mk 200 (FrameworkBody f)).

Definition deployment (type : string) (r : Outcome Response.t)
    (es : option EsClient) : Env :=
  mkEnv type frameworkPath headers (k8s r) es.

Definition healthy : EsClient := HistoryIndex.client (Resolved 200) docs.

End Sample.

(** ** Observing a run *)

(** The searches sent to the historical index, in order. *)
Definition searches (t : Trace) : list SearchParams :=
  flat_map (fun ev => match ev with EvEsSearch p => [p] | _ => [] end) t.

(** The paths requested from the k8s API, in order. *)
Definition k8sCalls (t : Trace) : list string :=
  flat_map (fun ev => match ev with EvK8sGet path _ => [path] | _ => [] end) t.

(** The outcome of the request both operations start with. *)
Definition fetchOutcome (env : Env) (frameworkName : string) : Outcome Response.t :=
  k8s_get env (launcherConfig_frameworkPath env (encodeName frameworkName))
    (launcherConfig_requestHeaders env).

(** The response the operations go on with, if any: the one the client
    resolved with, or the one carried by its rejection. *)
Definition liveResponse (o : Outcome Response.t) : option Response.t :=
  match o with
  | Resolved r => Some r
  | Rejected e => JsError.response e
  end.

(** The live fetch succeeds with the object [framework]. *)
Definition fetchedLive (env : Env) (frameworkName : string) (framework : Framework) : Prop :=
  liveResponse (fetchOutcome env frameworkName)
  = Some (Response.mk 200 (FrameworkBody framework)).

(** What a single-attempt query's hits make the answer of [get]. *)
Definition historyAnswer {S} (convert : Framework -> S) (hits : list Hit)
  : Reply.t (Entry S) :=
  match hits with
  | [] => Reply.mk 404 None
  | hit :: _ => Reply.mk 200 (Some (mkEntry (convert (objectSnapshot (source hit))) false))
  end.

(** The boundary rule read without any further condition: below
    [maxRetryCount] one search is sent and its hits decide the answer. *)
Definition boundaryRuleUnconditional {S} (convert : Framework -> S) (env : Env)
    (frameworkName : string) (jobAttemptIndex : Z) (framework : Framework) : Prop :=
  let r := run (JobAttempt.get S convert env frameworkName jobAttemptIndex) in
  let maxRetryCount := spec_retryPolicy_maxRetryCount framework in
  (jobAttemptIndex < maxRetryCount ->
   exists p hits,
     searches (fst r) = [p]
     /\ snd r = Return (historyAnswer convert hits))
  /\ (jobAttemptIndex = maxRetryCount ->
      snd r = Return (Reply.mk 200 (Some (mkEntry (convert framework) true)))
      /\ searches (fst r) = [])
  /\ (jobAttemptIndex > maxRetryCount -> snd r = Return (Reply.mk 404 None)).

(** No entry after the first has the first entry's attempt identifier. *)
Definition liveReportedOnce {S} (idOf : S -> Z) (r : Reply.t (list (Entry S))) : Prop :=
  match Reply.data r with
  | Some (live :: history) =>
      Forall (fun e => idOf (summary e) <> idOf (summary live)) history
  | _ => True
  end.

(** The entry [list] makes of a bucket's latest snapshot. *)
Definition historyEntry {S} (convert : Framework -> S) (snapshot : Framework) : Entry S :=
  mkEntry (convert snapshot) false.

(** ** More sample deployments *)

Module Sample2.

(** The index also holds snapshots of the attempt that is still running. *)
Definition docsWithCurrent : list Doc :=
  mkDoc 300 (Sample.snapshot 2 "attempt 2, running") :: Sample.docs.

Definition withCurrent : EsClient := HistoryIndex.client (Resolved 200) docsWithCurrent.

(** A live object without a uid. *)
Definition anonymous : Framework := mkFramework None 3 2 "live, no uid".

(** No ELASTICSEARCH_URI: the k8s launcher without a historical index. *)
Definition noIndex : Env :=
  Sample.deployment "k8s" (Sample.found Sample.live) None.

(** The legacy launcher, with a healthy index configured all the same. *)
Definition yarn : Env :=
  Sample.deployment "yarn" (Sample.found Sample.live) (Some Sample.healthy).

Definition k8s : Env :=
  Sample.deployment "k8s" (Sample.found Sample.live) (Some Sample.healthy).

Definition unavailable : JsError.t :=
  JsError.mk "503" (Some (Response.mk 503 (StatusBody (Some "service unavailable")))).

Definition refused : JsError.t := JsError.mk "connect ECONNREFUSED" None.

(** The live object has no uid. *)
Definition anonymousJob : Env :=
  Sample.deployment "k8s" (Sample.found anonymous) (Some Sample.healthy).

(** The index holds nothing at all. *)
Definition emptyHistory : Env :=
  Sample.deployment "k8s" (Sample.found Sample.live)
    (Some (HistoryIndex.client (Resolved 200) [])).

(** The index holds snapshots of the running attempt too. *)
Definition currentInHistory : Env :=
  Sample.deployment "k8s" (Sample.found Sample.live) (Some withCurrent).

(** The k8s API answers 404, answers 503, or cannot be reached. *)
Definition missingJob : Env :=
  Sample.deployment "k8s"
    (Rejected (JsError.mk "404" (Some (Response.mk 404 (StatusBody (Some "not found"))))))
    (Some Sample.healthy).

Definition failingApi : Env :=
  Sample.deployment "k8s" (Rejected unavailable) (Some Sample.healthy).

Definition unreachableApi : Env :=
  Sample.deployment "k8s" (Rejected refused) (Some Sample.healthy).

End Sample2.

(** ** Reading an answer of the index *)

(** [snapshot] is the object of the bucket's first hit. *)
Definition headSnapshot (bucket : Bucket) (snapshot : Framework) : Prop :=
  exists hit others,
    bucket_hits bucket = hit :: others /\ objectSnapshot (source hit) = snapshot.

(** [snapshot] is, among the documents of [uid] in [docs], one with the
    latest collection time of its attempt. *)
Definition isLatestSnapshot (uid : string) (docs : list Doc) (snapshot : Framework) : Prop :=
  exists d,
    In d docs /\ HistoryIndex.hasUid uid d = true /\ objectSnapshot d = snapshot
    /\ forall d', In d' docs -> HistoryIndex.hasUid uid d' = true ->
                  HistoryIndex.attemptOf d' = HistoryIndex.attemptOf d ->
                  collectTime d' <= collectTime d.

(** ** The key of a name that is not platform-managed, as the design states it

    Section 4.1: the name is normalised "by lower-casing and removing
    every character outside [a-z0-9]".  Said character by character, and
    without the functions of the embedding: an upper-case letter becomes
    the lower-case letter at the same place of the alphabet, a lower-case
    letter or a digit stays, any other character goes. *)

Module KeySpec.

Definition upperCase : string := "ABCDEFGHIJKLMNOPQRSTUVWXYZ".
Definition lowerCase : string := "abcdefghijklmnopqrstuvwxyz".
Definition digits : string := "0123456789".
Definition hexDigits : string := "0123456789abcdef".

Definition among (alphabet : string) (c : ascii) : bool :=
  existsb (Ascii.eqb c) (list_ascii_of_string alphabet).

Fixpoint position (c : ascii) (alphabet : string) : option nat :=
  match alphabet with
  | EmptyString => None
  | String a others =>
      if Ascii.eqb c a then Some O else option_map Datatypes.S (position c others)
  end.

Definition kept (c : ascii) : option ascii :=
  match position c upperCase with
  | Some i => String.get i lowerCase
  | None => if among lowerCase c || among digits c then Some c else None
  end.

Fixpoint normalize (s : string) : string :=
  match s with
  | EmptyString => EmptyString
  | String c s' =>
      match kept c with
      | Some c' => String c' (normalize s')
      | None => normalize s'
      end
  end.

(** The characters a key may be made of. *)
Definition keyChar (c : ascii) : bool := among lowerCase c || among digits c.

End KeySpec.

(** The health probes sent to the historical index. *)
Definition probes (t : Trace) : nat :=
  List.length (filter (fun ev => match ev with EvEsHealth => true | _ => false end) t).

(** The same deployment with another answer of the k8s API. *)
Definition withK8s (env : Env) (k8s : string -> Headers -> Outcome Response.t) : Env :=
  mkEnv (launcherConfig_type env) (launcherConfig_frameworkPath env)
    (launcherConfig_requestHeaders env) k8s (elasticSearchClient env).

(** What [buckets.map] of line 165 yields: the snapshot of every bucket's
    first hit, or the exception of the first bucket that has no hit. *)
Fixpoint firstSnapshots (buckets : list Bucket) : Result (list Framework) :=
  match buckets with
  | [] => Return []
  | bucket :: others =>
      match bucket_hits bucket with
      | [] => Throw (TypeError "Cannot read property '_source' of undefined")
      | hit :: _ =>
          match firstSnapshots others with
          | Return snapshots => Return (objectSnapshot (source hit) :: snapshots)
          | Throw e => Throw e
          end
      end
  end.

Module Sample3.

(** An index whose searches time out. *)
Definition timeout : JsError.t := JsError.mk "Request timed out" None.

Definition slowIndex : Env :=
  Sample.deployment "k8s" (Sample.found Sample.live)
    (Some (mkEsClient (Resolved 200) (fun _ => Rejected timeout))).

(** A search answer with a group that has no hit. *)
Definition oddBuckets : list Bucket :=
  [ mkBucket 1 1 [mkHit (mkDoc 205 (Sample.snapshot 1 "attempt 1, final"))];
    mkBucket 0 0 [] ].

Definition oddIndex : Env :=
  Sample.deployment "k8s" (Sample.found Sample.live)
    (Some (mkEsClient (Resolved 200) (fun _ => Resolved (TermsResult oddBuckets)))).

(** A client that rejects although the API answered 200. *)
Definition rejected200 : JsError.t :=
  JsError.mk "rejected" (Some (Response.mk 200 (FrameworkBody Sample.live))).

End Sample3.

(** * The template import page (webportal, template-import.component.js) *)

From Stdlib Require QArith DecimalString.

(** ** JSON values as JavaScript holds them

    [JUndefined] is what reading a missing property gives.  A number is
    never computed with here; it is kept as a fraction.  The properties of
    an object are listed in the order in which [Object.keys] enumerates
    them. *)

#[local] Set Warnings "-register-all".

Inductive json :=
| JUndefined
| JNull
| JBool (b : bool)
| JNum (q : QArith_base.Q)
| JStr (s : string)
| JArr (items : list json)
| JObj (props : list (string * json)).

Module Js.

(** [props[k]] of an object. *)
Fixpoint lookup (k : string) (props : list (string * json)) : json :=
  match props with
  | [] => JUndefined
  | (k', v) :: rest => if String.eqb k k' then v else lookup k rest
  end.

Definition hasKey (k : string) (props : list (string * json)) : bool :=
  existsb (fun p => String.eqb k (fst p)) props.

(** [obj[k] = v]: an existing property keeps its place, a new one comes
    last. *)
Fixpoint setKey (k : string) (v : json) (props : list (string * json))
  : list (string * json) :=
  match props with
  | [] => [(k, v)]
  | (k', v') :: rest =>
      if String.eqb k k' then (k, v) :: rest else (k', v') :: setKey k v rest
  end.

Definition andThen {A B} (r : Result A) (k : A -> Result B) : Result B :=
  match r with
  | Return a => k a
  | Throw e => Throw e
  end.

Notation "x <~ r ;; k" := (andThen r (fun x => k))
  (at level 61, r at next level, right associativity).

(** [k in v], for a key that is neither an array index nor defined by a
    prototype. *)
Definition inOperator (k : string) (v : json) : Result bool :=
  match v with
  | JObj props => Return (hasKey k props)
  | JArr _ => Return false
  | _ => Throw (TypeError "Cannot use 'in' operator to search for a key in a primitive")
  end.

(** [v[k]], for a key that is neither an array index nor defined by a
    prototype. *)
Definition get (v : json) (k : string) : Result json :=
  match v with
  | JUndefined => Throw (TypeError "Cannot read property of undefined")
  | JNull => Throw (TypeError "Cannot read property of null")
  | JObj props => Return (lookup k props)
  | _ => Return JUndefined
  end.

Definition indexKey (i : nat) : string :=
  DecimalString.NilEmpty.string_of_uint (Nat.to_uint i).

(** The keys [Object.keys(v)] enumerates, each with [v[key]]. *)
Definition entriesOf (v : json) : Result (list (string * json)) :=
  match v with
  | JUndefined | JNull => Throw (TypeError "Cannot convert undefined or null to object")
  | JObj props => Return (map (fun k => (k, lookup k props)) (map fst props))
  | JArr items => Return (combine (map indexKey (seq 0 (List.length items))) items)
  | JStr s =>
      Return (combine (map indexKey (seq 0 (String.length s)))
                (map (fun c => JStr (String c EmptyString)) (list_ascii_of_string s)))
  | JBool _ | JNum _ => Return []
  end.

End Js.

Module TemplateImport.

Import Js.

Definition one : json := JNum (QArith_base.Qmake 1 1).

(** [task['resource']['resoucePerInstance'][k]]. *)
Definition perInstance (task : json) (k : string) : Result json :=
  resource <~ get task "resource" ;;
  resoucePerInstance <~ get resource "resoucePerInstance" ;;
  get resoucePerInstance k.

(** The object literal of lines 54-65, its property values read in
    order. *)
Definition convertTask (key : string) (task : json) : Result json :=
  data <~ get task "data" ;;
  cpu <~ perInstance task "cpu" ;;
  script <~ get task "script" ;;
  gpu <~ perInstance task "gpu" ;;
  dockerimage <~ get task "dockerimage" ;;
  memoryMB <~ perInstance task "memoryMB" ;;
  env <~ get task "env" ;;
  command <~ get task "command" ;;
  Return (JObj [ ("role", JStr key);
                 ("instances", one);
                 ("data", data);
                 ("cpu", cpu);
                 ("script", script);
                 ("gpu", gpu);
                 ("dockerimage", dockerimage);
                 ("memoryMB", memoryMB);
                 ("env", env);
                 ("command", command) ]).

(** The [forEach] of lines 52-66: the tasks pushed, in order. *)
Fixpoint convertTasks (entries : list (string * json)) : Result (list json) :=
  match entries with
  | [] => Return []
  | (key, task) :: rest =>
      converted <~ convertTask key task ;;
      others <~ convertTasks rest ;;
      Return (converted :: others)
  end.

(** The three arrays of [res]: 'data', 'script' and 'docker'. *)
Record Sorted3 := mkSorted3 {
  dataItems : list json;
  scriptItems : list json;
  dockerItems : list json
}.

(** The [switch] of lines 73-83. *)
Definition pushByType (type : json) (item : json) (acc : Sorted3) : Sorted3 :=
  match type with
  | JStr t =>
      if String.eqb t "data"
      then mkSorted3 (dataItems acc ++ [item]) (scriptItems acc) (dockerItems acc)
      else if String.eqb t "script"
      then mkSorted3 (dataItems acc) (scriptItems acc ++ [item]) (dockerItems acc)
      else if String.eqb t "dockerimage"
      then mkSorted3 (dataItems acc) (scriptItems acc) (dockerItems acc ++ [item])
      else acc
  | _ => acc
  end.

(** The [forEach] of lines 71-84. *)
Fixpoint sortItems (entries : list (string * json)) (acc : Sorted3) : Result Sorted3 :=
  match entries with
  | [] => Return acc
  | (_, item) :: rest =>
      type <~ get item "type" ;;
      sortItems rest (pushByType type item acc)
  end.

(** Lines 48-69: the job with its tasks turned into an array, when
    [data] has a job.  A job that is null fails on the read of 'tasks'; a
    job that is no object has no tasks to enumerate. *)
Definition convertJob (data : json) : Result (option json) :=
  inJob <~ inOperator "job" data ;;
  if inJob then
    d <~ get data "job" ;;
    match d with
    | JObj dprops =>
        entries <~ entriesOf (lookup "tasks" dprops) ;;
        tasks <~ convertTasks entries ;;
        Return (Some (JObj (setKey "tasks" (JArr tasks) dprops)))
    | JUndefined => Throw (TypeError "Cannot read property of undefined")
    | JNull => Throw (TypeError "Cannot read property of null")
    | _ => Throw (TypeError "Cannot convert undefined or null to object")
    end
  else Return None.

(** Lines 70-85. *)
Definition sortPrerequisites (data : json) : Result Sorted3 :=
  inPrerequisites <~ inOperator "prerequisites" data ;;
  if inPrerequisites then
    prerequisites <~ get data "prerequisites" ;;
    entries <~ entriesOf prerequisites ;;
    sortItems entries (mkSorted3 [] [] [])
  else Return (mkSorted3 [] [] []).

(** [data] after the call: its job is the object that was changed in
    place. *)
Definition dataAfter (data : json) (job : option json) : json :=
  match data, job with
  | JObj props, Some d => JObj (setKey "job" d props)
  | _, _ => data
  end.

(** Lines 46-87.  The result is [res] together with [data] as the call
    leaves it; what an exception leaves of [data] is not modelled. *)
Definition restApi2JsonEditor (data : json) : Result (json * json) :=
  job <~ convertJob data ;;
  sorted <~ sortPrerequisites data ;;
  Return (JObj ([ ("data", JArr (dataItems sorted));
                  ("script", JArr (scriptItems sorted));
                  ("docker", JArr (dockerItems sorted)) ]
                ++ match job with
                   | Some d => [("job", d)]
                   | None => []
                   end),
          dataAfter data job).

(** ** Checking an uploaded file (lines 93-111) *)

(** One entry of what [editor.validate] returns. *)
Record ValidationError := mkValidationError {
  error_path : string;
  error_message : string
}.

(** [s.replace(p, '')] for a string [p]: the first occurrence goes. *)
Fixpoint removeFirst (p s : string) : string :=
  if JsString.startsWith s p then JsString.drop (String.length p) s
  else
    match s with
    | EmptyString => EmptyString
    | String c s' => String c (removeFirst p s')
    end.

(** [e.message]. *)
Definition exnMessage (e : Exn) : string :=
  match e with
  | Thrown err => JsError.message err
  | HttpError _ _ (Some m) => m
  | HttpError _ _ None => "undefined"
  | TypeError what => what
  end.

Section Upload.

(** [JSON.parse], and the editor once [loadEditor] has run: its
    [validate]. *)
Variable JSON_parse : string -> Result json.
Variable editor : option (json -> Result (list ValidationError)).

(** The [try] block: what [errors] holds when it ends, [None] for the
    empty array that leaves [valid] true. *)
Definition tryValidate (str : string) : Result (option string) :=
  parsed <~ JSON_parse str ;;
  errors <~ match editor with
            | None => Throw (TypeError "Cannot read property 'validate' of undefined")
            | Some validate => validate parsed
            end ;;
  match errors with
  | [] => Return None
  | first :: _ =>
      Return (Some (removeFirst "root." (error_path first) ++ ": "
                    ++ error_message first)%string)
  end.

Definition pleaseUpload : string := "Please upload a valid json file: ".

(** The value returned, with the alerts shown. *)
Definition isValidJson (str : string) : list string * bool :=
  match tryValidate str with
  | Return None => ([], true)
  | Return (Some errors) => ([(pleaseUpload ++ errors)%string], false)
  | Throw e => ([(pleaseUpload ++ exnMessage e)%string], false)
  end.

End Upload.

End TemplateImport.

(** ** Sample templates *)

Module SampleTemplate.

Definition num (n : Z) : json := JNum (QArith_base.Qmake n 1).

Definition worker : json :=
  JObj [ ("data", JStr "cifar10");
         ("script", JStr "train");
         ("dockerimage", JStr "tf");
         ("env", JObj []);
         ("command", JArr [JStr "python train.py"]);
         ("resource",
          JObj [ ("instances", JStr "$job.parameters.num_of_worker");
                 ("resoucePerInstance",
                  JObj [("cpu", num 4); ("gpu", num 1); ("memoryMB", num 8192)]) ]) ].

(** The same task with the key spelt 'resourcePerInstance'. *)
Definition wellSpelt : json :=
  JObj [ ("data", JStr "cifar10");
         ("resource",
          JObj [ ("instances", num 2);
                 ("resourcePerInstance",
                  JObj [("cpu", num 4); ("gpu", num 1); ("memoryMB", num 8192)]) ]) ].

Definition item (type name : string) : json :=
  JObj [("name", JStr name); ("type", JStr type)].

Definition jobProps : list (string * json) :=
  [ ("name", JStr "demo");
    ("tasks", JObj [("worker", worker)]);
    ("version", JStr "1.0") ].

Definition templateProps : list (string * json) :=
  [ ("job", JObj jobProps);
    ("prerequisites",
     JArr [ item "dockerimage" "tf"; item "data" "cifar10";
            item "model" "resnet"; item "script" "train";
            item "data" "mnist" ]) ].

Definition template : json := JObj templateProps.

(** A job with a task that spells the key 'resourcePerInstance'. *)
Definition mixedTasks : list (string * json) :=
  [("worker", worker); ("ps", wellSpelt)].

Definition mixedProps : list (string * json) :=
  [("job", JObj [("tasks", JObj mixedTasks)])].

Definition convertedWorker : json :=
  JObj [ ("role", JStr "worker");
         ("instances", num 1);
         ("data", JStr "cifar10");
         ("cpu", num 4);
         ("script", JStr "train");
         ("gpu", num 1);
         ("dockerimage", JStr "tf");
         ("memoryMB", num 8192);
         ("env", JObj []);
         ("command", JArr [JStr "python train.py"]) ].

Definition convertedJob : json :=
  JObj [ ("name", JStr "demo");
         ("tasks", JArr [convertedWorker]);
         ("version", JStr "1.0") ].

End SampleTemplate.

(** [item['type'] === t]. *)
Definition typeIs (t : string) (item : json) : bool :=
  match item with
  | JObj props =>
      match Js.lookup "type" props with
      | JStr s => String.eqb s t
      | _ => false
      end
  | _ => false
  end.

(** What a converted task holds of the task it was made from. *)
Definition convertedFrom (key : string) (task converted : json) : Prop :=
  Js.get converted "role" = Return (JStr key)
  /\ Js.get converted "instances" = Return TemplateImport.one
  /\ Js.get converted "data" = Js.get task "data"
  /\ Js.get converted "script" = Js.get task "script"
  /\ Js.get converted "dockerimage" = Js.get task "dockerimage"
  /\ Js.get converted "env" = Js.get task "env"
  /\ Js.get converted "command" = Js.get task "command"
  /\ Js.get converted "cpu" = TemplateImport.perInstance task "cpu"
  /\ Js.get converted "gpu" = TemplateImport.perInstance task "gpu"
  /\ Js.get converted "memoryMB" = TemplateImport.perInstance task "memoryMB".

(** * Sample runs *)

Example md5_empty : Md5.md5hex EmptyString = "d41d8cd98f00b204e9800998ecf8427e".
Proof. vm_compute. reflexivity. Qed.

Example md5_abc : Md5.md5hex "abc" = "900150983cd24fb0d6963f7d28e17f72".
Proof. vm_compute. reflexivity. Qed.

Example md5_message_digest :
  Md5.md5hex "message digest" = "f96b697d7cb7938d525a2f31aaf161d0".
Proof. vm_compute. reflexivity. Qed.

Example md5_two_blocks :
  Md5.md5hex "xxxxxxxxxxxxxxxxxxxxxxxxxxxxxxxxxxxxxxxxxxxxxxxxxxxxxxx~"
  = "9d725140f52f233d548e9d92523b9951".
Proof. vm_compute. reflexivity. Qed.

(** A code unit above 127 is hashed as its two UTF-8 bytes ('caf\u00e9~1'). *)
Example md5_latin1 :
  Md5.md5hex (String "c" (String "a" (String "f" (String (JsString.ofCode 233) "~1"))))
  = "dc8a8028377d3c629776ffcc1e7c52c9".
Proof. vm_compute. reflexivity. Qed.

Example encodeName_managed : encodeName "user~job_1" = "4dab64c6508d1f5d81bbdbb464480436".
Proof. vm_compute. reflexivity. Qed.

Example encodeName_plain : encodeName "My-Job.01" = "myjob01".
Proof. vm_compute. reflexivity. Qed.

Example encodeName_marker : encodeName "unknownunknown~A" = "unknowna".
Proof. vm_compute. reflexivity. Qed.

Example sample_list :
  snd (run (JobAttempt.list Framework (fun f => f)
              (Sample.deployment "k8s" (Sample.found Sample.live) (Some Sample.healthy))
              "alice~job"))
  = Return (Reply.mk 200
      (Some [ mkEntry Sample.live true;
              mkEntry (Sample.snapshot 1 "attempt 1, final") false;
              mkEntry (Sample.snapshot 0 "attempt 0, final") false ])).
Proof. vm_compute. reflexivity. Qed.

Example sample_get_history :
  snd (run (JobAttempt.get Framework (fun f => f)
              (Sample.deployment "k8s" (Sample.found Sample.live) (Some Sample.healthy))
              "alice~job" 1))
  = Return (Reply.mk 200 (Some (mkEntry (Sample.snapshot 1 "attempt 1, final") false))).
Proof. vm_compute. reflexivity. Qed.

Example sample_get_live :
  run (JobAttempt.get Framework (fun f => f)
         (Sample.deployment "k8s" (Sample.found Sample.live) (Some Sample.healthy))
         "alice~job" 3)
  = ([EvK8sGet (Sample.frameworkPath "ff42aba5857d460d34bd01f1373be478") Sample.headers],
     Return (Reply.mk 200 (Some (mkEntry Sample.live true)))).
Proof. vm_compute. reflexivity. Qed.

(** * Properties *)

(** ** The name encoder *)

Section EncoderFacts.

Lemma filter_all (p : ascii -> bool) (s : string) :
  JsString.all p (JsString.filter p s) = true.
Proof.
  induction s as [|c s IH]; simpl; [reflexivity|].
  destruct (p c) eqn:E; simpl; [rewrite E|]; exact IH.
Qed.

Lemma stripLeading_marker (rest : string) :
  JsString.stripLeading "unknown" ("unknown" ++ rest)%string = rest.
Proof. cbv. reflexivity. Qed.

Lemma stripLeading_absent (p s : string) :
  JsString.startsWith s p = false -> JsString.stripLeading p s = s.
Proof. unfold JsString.stripLeading. now intros ->. Qed.

Lemma hexDigit_is_hex (n : Z) :
  0 <= n < 16 -> JsString.isHexDigit (Md5.hexDigit n) = true.
Proof.
  intros H.
  assert (A : forallb (fun i => JsString.isHexDigit (Md5.hexDigit (Z.of_nat i)))
                (seq 0 16) = true) by reflexivity.
  rewrite forallb_forall in A. specialize (A (Z.to_nat n)).
  rewrite Z2Nat.id in A by lia. apply A, in_seq. lia.
Qed.

Lemma high_nibble (b : Z) : 0 <= Z.shiftr (Z.land b 255) 4 < 16.
Proof.
  change 255 with (Z.ones 8). rewrite Z.land_ones by lia.
  rewrite Z.shiftr_div_pow2 by lia.
  change (2 ^ 8) with 256. change (2 ^ 4) with 16.
  pose proof (Z.mod_pos_bound b 256 ltac:(lia)).
  split; [apply Z.div_pos; lia | apply Z.div_lt_upper_bound; lia].
Qed.

Lemma low_nibble (b : Z) : 0 <= Z.land b 15 < 16.
Proof.
  change 15 with (Z.ones 4). rewrite Z.land_ones by lia.
  change (2 ^ 4) with 16. apply Z.mod_pos_bound. lia.
Qed.

Lemma hex_length (bs : list Z) :
  String.length (Md5.hex bs) = (2 * List.length bs)%nat.
Proof. induction bs as [|b bs IH]; simpl; [reflexivity | rewrite IH; lia]. Qed.

Lemma hex_all_hex (bs : list Z) :
  JsString.all JsString.isHexDigit (Md5.hex bs) = true.
Proof.
  induction bs as [|b bs IH]; [reflexivity|].
  cbn [Md5.hex JsString.all].
  rewrite (hexDigit_is_hex _ (high_nibble b)), (hexDigit_is_hex _ (low_nibble b)).
  exact IH.
Qed.

Lemma digest_length (msg : list Z) : List.length (Md5.digest msg) = 16%nat.
Proof.
  unfold Md5.digest, Md5.wordBytes.
  rewrite !length_app, !length_map. reflexivity.
Qed.

End EncoderFacts.

Section EncoderAgainstSpec.

Ltac every_character c :=
  destruct c as [b0 b1 b2 b3 b4 b5 b6 b7];
  destruct b0, b1, b2, b3, b4, b5, b6, b7; vm_compute; reflexivity.

(** Lower-casing one code unit and then testing it against [a-z0-9] is
    the design's rule for that character. *)
Lemma kept_char (c : ascii) :
  KeySpec.kept c
  = if JsString.isLowerAlnum (JsString.lowerChar c) then Some (JsString.lowerChar c)
    else None.
Proof. every_character c. Qed.

Lemma keyChar_char (c : ascii) : KeySpec.keyChar c = JsString.isLowerAlnum c.
Proof. every_character c. Qed.

Lemma hexDigits_char (c : ascii) :
  KeySpec.among KeySpec.hexDigits c = JsString.isHexDigit c.
Proof. every_character c. Qed.

Lemma convertName_normalize (s : string) : convertName s = KeySpec.normalize s.
Proof.
  unfold convertName. induction s as [|c s IH]; [reflexivity|].
  cbn [JsString.toLowerCase JsString.filter KeySpec.normalize].
  rewrite kept_char, IH.
  destruct (JsString.isLowerAlnum (JsString.lowerChar c)); reflexivity.
Qed.

Lemma startsWith_prefix (s p : string) :
  JsString.startsWith s p = true <-> exists rest, s = (p ++ rest)%string.
Proof.
  revert s. induction p as [|a p IH]; intros s; cbn.
  - split; [intros _; exists s; reflexivity | reflexivity].
  - destruct s as [|b s].
    + split; [discriminate | intros (rest & H); discriminate].
    + rewrite andb_true_iff, IH. split.
      * intros (E & rest & ->). apply Ascii.eqb_eq in E. subst. exists rest. reflexivity.
      * intros (rest & H). injection H as -> ->.
        split; [apply Ascii.eqb_refl | exists rest; reflexivity].
Qed.

Lemma includes_char (s : string) (c : ascii) :
  JsString.includes s (String c EmptyString) = true
  <-> In c (list_ascii_of_string s).
Proof.
  induction s as [|d s IH]; cbn.
  - split; [discriminate | tauto].
  - rewrite orb_true_iff, IH, andb_true_r, Ascii.eqb_eq.
    split; (intros [H | H]; [left; congruence | right; exact H]).
Qed.

Lemma all_Forall (p : ascii -> bool) (s : string) :
  JsString.all p s = true -> Forall (fun c => p c = true) (list_ascii_of_string s).
Proof.
  induction s as [|c s IH]; cbn; [constructor|].
  intros H. apply andb_true_iff in H. constructor; tauto.
Qed.

Lemma not_prefix (s p : string) :
  (forall rest, s <> (p ++ rest)%string) -> JsString.startsWith s p = false.
Proof.
  intros H. destruct (JsString.startsWith s p) eqn:E; [|reflexivity].
  apply startsWith_prefix in E. destruct E as (rest & E). destruct (H rest E).
Qed.

Lemma not_included (s : string) (c : ascii) :
  ~ In c (list_ascii_of_string s) -> JsString.includes s (String c EmptyString) = false.
Proof.
  intros H. destruct (JsString.includes s (String c EmptyString)) eqn:E; [|reflexivity].
  apply includes_char in E. destruct (H E).
Qed.

End EncoderAgainstSpec.

(** C9.  [encodeName] is a function of the name alone, defined on every
    string.  When the name is the marker 'unknown' followed by some rest,
    the result is that rest normalised as the design says: every
    upper-case letter turned into its lower-case letter, every lower-case
    letter and digit kept, every other character removed.  When the name
    does not start with the marker and holds no '~', the result is the
    whole name normalised in that way.  In both cases the result is made
    of characters of [a-z0-9] only.  For every other name the result is
    the hex form of the MD5 digest of the name: 32 characters, all of them
    among 0-9 and a-f. *)
Theorem encodeName_spec (name : string) :
  (forall rest, name = ("unknown" ++ rest)%string ->
     encodeName name = KeySpec.normalize rest
     /\ encodeName name = convertName rest)
  /\ ((forall rest, name <> ("unknown" ++ rest)%string) ->
      ~ In "~"%char (list_ascii_of_string name) ->
      encodeName name = KeySpec.normalize name
      /\ encodeName name = convertName name)
  /\ ((exists rest, name = ("unknown" ++ rest)%string)
      \/ ~ In "~"%char (list_ascii_of_string name) ->
      Forall (fun c => KeySpec.keyChar c = true) (list_ascii_of_string (encodeName name))
      /\ JsString.all JsString.isLowerAlnum (encodeName name) = true)
  /\ ((forall rest, name <> ("unknown" ++ rest)%string) ->
      In "~"%char (list_ascii_of_string name) ->
      encodeName name = Md5.hex (Md5.digest (JsString.utf8 name))
      /\ String.length (encodeName name) = 32%nat
      /\ Forall (fun c => KeySpec.among KeySpec.hexDigits c = true)
           (list_ascii_of_string (encodeName name))
      /\ JsString.all JsString.isHexDigit (encodeName name) = true).
Proof.
  split; [|split; [|split]].
  - intros rest ->. unfold encodeName.
    rewrite stripLeading_marker, <- convertName_normalize. split; reflexivity.
  - intros Hs Hi. apply not_prefix in Hs. apply not_included in Hi.
    unfold encodeName. rewrite Hs, Hi. cbn [orb negb].
    rewrite stripLeading_absent by exact Hs.
    rewrite <- convertName_normalize. split; reflexivity.
  - intros H.
    assert (C : JsString.startsWith name "unknown"
                || negb (JsString.includes name "~") = true).
    { destruct H as [H | H].
      - apply startsWith_prefix in H. rewrite H. reflexivity.
      - rewrite (not_included _ _ H). apply orb_true_r. }
    assert (A : JsString.all JsString.isLowerAlnum (encodeName name) = true)
      by (unfold encodeName; rewrite C; apply filter_all).
    split; [|exact A].
    apply all_Forall in A. eapply Forall_impl; [|exact A].
    intros c Hc. now rewrite keyChar_char.
  - intros Hs Hi. apply not_prefix in Hs. apply includes_char in Hi.
    assert (E : encodeName name = Md5.md5hex name)
      by (unfold encodeName; rewrite Hs, Hi; reflexivity).
    rewrite E. split; [reflexivity|]. split; [|split].
    + unfold Md5.md5hex. rewrite hex_length, digest_length. reflexivity.
    + pose proof (all_Forall _ _ (hex_all_hex (Md5.digest (JsString.utf8 name)))) as A.
      eapply Forall_impl; [|exact A]. intros c Hc. now rewrite hexDigits_char.
    + apply hex_all_hex.
Qed.

Lemma encodeName_spec_witness :
  encodeName "unknownJob-7~a" = "job7a"
  /\ encodeName "My Job.7" = "myjob7"
  /\ Forall (fun c => KeySpec.keyChar c = true)
       (list_ascii_of_string (encodeName "My Job.7"))
  /\ encodeName "alice~job" = "ff42aba5857d460d34bd01f1373be478"
  /\ String.length (encodeName "alice~job") = 32%nat.
Proof.
  assert (N : forall rest, "My Job.7" <> ("unknown" ++ rest)%string)
    by (intros rest; discriminate).
  assert (T : ~ In "~"%char (list_ascii_of_string "My Job.7"))
    by (cbn; intuition discriminate).
  assert (M : forall rest, "alice~job" <> ("unknown" ++ rest)%string)
    by (intros rest; discriminate).
  assert (I : In "~"%char (list_ascii_of_string "alice~job"))
    by (cbn; tauto).
  split; [|split; [|split; [|split]]].
  - exact (proj1 (proj1 (encodeName_spec "unknownJob-7~a") "Job-7~a" eq_refl)).
  - exact (proj1 (proj1 (proj2 (encodeName_spec "My Job.7")) N T)).
  - exact (proj1 (proj1 (proj2 (proj2 (encodeName_spec "My Job.7"))) (or_intror T))).
  - pose proof (proj1 (proj2 (proj2 (proj2 (encodeName_spec "alice~job"))) M I)) as H.
    rewrite H. vm_compute. reflexivity.
  - exact (proj1 (proj2 (proj2 (proj2 (proj2 (encodeName_spec "alice~job"))) M I))).
Defined.

(** ** The health gate *)

Lemma legacy_test_is_false (type : string) :
  strictEq (VBool (strictEq (VStr type) (VStr "yarn"))) (VStr "yarn") = false.
Proof. reflexivity. Qed.

Lemma healthCheck_run (env : Env) (t : Trace) :
  JobAttempt.healthCheck env t =
  match elasticSearchClient env with
  | None => (t, Return false)
  | Some client =>
      match cat_health client with
      | Resolved code =>
          if code =? 200 then (t ++ [EvEsHealth], Return true)
          else ((t ++ [EvEsHealth]) ++ [EvLog LogWarn], Return false)
      | Rejected _ => ((t ++ [EvEsHealth]) ++ [EvLog LogError], Return false)
      end
  end.
Proof.
  unfold JobAttempt.healthCheck. rewrite legacy_test_is_false.
  destruct (elasticSearchClient env) as [client|]; [|reflexivity].
  unfold tryCatch, bind, emit, await.
  destruct (cat_health client) as [code|e]; cbn; [|reflexivity].
  destruct (code =? 200); reflexivity.
Qed.

(** C8.  [healthCheck] never throws: from any trace it returns a boolean.
    The boolean is [false] when the probe rejects, when the probe answers
    with a status other than 200, and when no client is configured; it is
    [true] exactly when a client is configured and its probe answers 200. *)
Theorem healthCheck_never_throws (env : Env) (t : Trace) :
  exists (b : bool) (t' : Trace),
    JobAttempt.healthCheck env t = (t', Return b)
    /\ (forall client e,
          elasticSearchClient env = Some client ->
          cat_health client = Rejected e -> b = false)
    /\ (forall client code,
          elasticSearchClient env = Some client ->
          cat_health client = Resolved code -> code <> 200 -> b = false)
    /\ (elasticSearchClient env = None -> b = false)
    /\ (b = true <->
        exists client,
          elasticSearchClient env = Some client /\ cat_health client = Resolved 200).
Proof.
  rewrite healthCheck_run.
  destruct (elasticSearchClient env) as [client|] eqn:Ec.
  - destruct (cat_health client) as [code|e] eqn:Eh.
    + destruct (code =? 200) eqn:E200.
      * apply Z.eqb_eq in E200. subst code.
        exists true, (t ++ [EvEsHealth]).
        split; [reflexivity|]. split; [congruence|].
        split; [intros c code [= <-]; rewrite Eh; intros [= <-]; congruence|].
        split; [congruence|].
        split; [intros _; exists client; auto | reflexivity].
      * apply Z.eqb_neq in E200.
        exists false, ((t ++ [EvEsHealth]) ++ [EvLog LogWarn]).
        repeat split; try congruence.
        intros (c & [= <-] & Hc). rewrite Eh in Hc. congruence.
    + exists false, ((t ++ [EvEsHealth]) ++ [EvLog LogError]).
      repeat split; try congruence.
      intros (c & [= <-] & Hc). rewrite Eh in Hc. congruence.
  - exists false, t. repeat split; try congruence.
    intros (c & Hc & _). congruence.
Qed.

(** C3, on the code.  Against the legacy launcher ('yarn') with a healthy
    index configured, [healthCheck] probes the index and returns [true]:
    the test of line 52 compares a boolean with a string and is false for
    every launcher type. *)
Theorem healthCheck_yarn_returns_true :
  launcherConfig_type Sample2.yarn = "yarn"
  /\ run (JobAttempt.healthCheck Sample2.yarn) = ([EvEsHealth], Return true).
Proof. split; reflexivity. Qed.

(** ** Runs of the two operations *)

Lemma searches_app (t u : Trace) : searches (t ++ u) = searches t ++ searches u.
Proof. apply flat_map_app. Qed.

Lemma k8sCalls_app (t u : Trace) : k8sCalls (t ++ u) = k8sCalls t ++ k8sCalls u.
Proof. apply flat_map_app. Qed.

Section Runs.

Context {S : Type} (convert : Framework -> S) (env : Env).

Local Abbreviation listAttempts := (JobAttempt.list S convert env).
Local Abbreviation getAttempt := (JobAttempt.get S convert env).

Lemma getFramework_run (name : string) (t : Trace) :
  JobAttempt.getFramework env name t =
  let ev := EvK8sGet (launcherConfig_frameworkPath env (encodeName name))
              (launcherConfig_requestHeaders env) in
  match fetchOutcome env name with
  | Resolved r => (t ++ [ev], Return r)
  | Rejected e =>
      match JsError.response e with
      | Some r => ((t ++ [ev]) ++ [EvLog LogError], Return r)
      | None => ((t ++ [ev]) ++ [EvLog LogError], Throw (Thrown e))
      end
  end.
Proof.
  unfold JobAttempt.getFramework, fetchOutcome, tryCatch, bind, emit, await.
  cbn. destruct (k8s_get env _ _) as [r|e]; cbn; [reflexivity|].
  destruct (JsError.response e); reflexivity.
Qed.

(** A fetch that yields a response sends no search. *)
Lemma getFramework_found (name : string) (r : Response.t) :
  liveResponse (fetchOutcome env name) = Some r ->
  exists t0,
    JobAttempt.getFramework env name [] = (t0, Return r)
    /\ searches t0 = []
    /\ k8sCalls t0 = [launcherConfig_frameworkPath env (encodeName name)].
Proof.
  intros H. rewrite getFramework_run. cbn zeta.
  destruct (fetchOutcome env name) as [r'|e]; cbn in H.
  - injection H as ->. eexists. split; [reflexivity|]. split; reflexivity.
  - rewrite H. eexists. split; [reflexivity|]. split; reflexivity.
Qed.

(** A rejection without a response is thrown again, and sends no search. *)
Lemma getFramework_rejected (name : string) (e : JsError.t) :
  fetchOutcome env name = Rejected e ->
  JsError.response e = None ->
  exists t0,
    JobAttempt.getFramework env name [] = (t0, Throw (Thrown e))
    /\ searches t0 = [].
Proof.
  intros H Hr. rewrite getFramework_run, H, Hr. cbn zeta.
  eexists. split; reflexivity.
Qed.

Lemma esSearch_run (p : SearchParams) (t : Trace) :
  JobAttempt.esSearch env p t =
  match elasticSearchClient env with
  | None => (t, Throw (TypeError "Cannot read property 'search' of undefined"))
  | Some client =>
      match search client p with
      | Resolved a => (t ++ [EvEsSearch p], Return a)
      | Rejected e => (t ++ [EvEsSearch p], Throw (Thrown e))
      end
  end.
Proof.
  unfold JobAttempt.esSearch.
  destruct (elasticSearchClient env) as [client|]; [|reflexivity].
  unfold bind, emit, await. destruct (search client p); reflexivity.
Qed.

Lemma list_run (name : string) :
  run (listAttempts name) =
  match JobAttempt.getFramework env name [] with
  | (t0, Throw e) => (t0, Throw e)
  | (t0, Return response) =>
      if Response.status response =? 200 then
        match Response.data response with
        | StatusBody _ => (t0, Throw (TypeError "Cannot read property 'uid' of undefined"))
        | FrameworkBody framework =>
            match metadata_uid framework with
            | None => (t0, Return (Reply.mk 404 None))
            | Some uid =>
                match JobAttempt.esSearch env (mkParams "framework" (JobAttempt.listBody uid)) t0 with
                | (t1, Throw e) => (t1, Throw e)
                | (t1, Return (FilterResult _ _)) => (t1, Return (Reply.mk 404 None))
                | (t1, Return (TermsResult [])) => (t1, Return (Reply.mk 404 None))
                | (t1, Return (TermsResult (b :: bs))) =>
                    match mapM JobAttempt.firstSnapshot (b :: bs) t1 with
                    | (t2, Throw e) => (t2, Throw e)
                    | (t2, Return retryFrameworks) =>
                        (t2, Return (Reply.mk 200
                                       (Some (mkEntry (convert framework) true
                                              :: map (historyEntry convert) retryFrameworks))))
                    end
                end
            end
        end
      else if Response.status response =? 404 then
        (t0 ++ [EvLog LogWarn], Return (Reply.mk 404 None))
      else (t0, Throw (HttpError (Response.status response) "UnknownError"
                         (bodyMessage (Response.data response))))
  end.
Proof.
  unfold run, JobAttempt.list. cbn [truthy negb]. unfold bind at 1.
  destruct (JobAttempt.getFramework env name []) as [t0 [response|e]]; [|reflexivity].
  destruct (Response.status response =? 200).
  - destruct (Response.data response) as [framework|m]; [|reflexivity].
    destruct (metadata_uid framework) as [uid|]; [|reflexivity].
    unfold bind at 1.
    destruct (JobAttempt.esSearch env _ t0) as [t1 [[[|b bs]|n hits]|e]]; try reflexivity.
    unfold bind at 1.
    destruct (mapM JobAttempt.firstSnapshot (b :: bs) t1) as [t2 [fs|e]]; [|reflexivity].
    unfold ret. rewrite map_map. reflexivity.
  - destruct (Response.status response =? 404); reflexivity.
Qed.

Lemma get_run (name : string) (jobAttemptIndex : Z) :
  run (getAttempt name jobAttemptIndex) =
  match JobAttempt.getFramework env name [] with
  | (t0, Throw e) => (t0, Throw e)
  | (t0, Return response) =>
      if Response.status response =? 200 then
        match Response.data response with
        | StatusBody _ => (t0, Throw (TypeError "Cannot read property 'uid' of undefined"))
        | FrameworkBody framework =>
            if jobAttemptIndex <? spec_retryPolicy_maxRetryCount framework then
              match metadata_uid framework with
              | None => (t0, Return (Reply.mk 404 None))
              | Some uid =>
                  match JobAttempt.esSearch env
                          (mkParams "framework" (JobAttempt.getBody uid jobAttemptIndex)) t0 with
                  | (t1, Throw e) => (t1, Throw e)
                  | (t1, Return (TermsResult _)) =>
                      (t1, Throw (TypeError "Cannot read property 'hits' of undefined"))
                  | (t1, Return (FilterResult _ hits)) =>
                      (t1, Return (historyAnswer convert hits))
                  end
              end
            else if jobAttemptIndex =? spec_retryPolicy_maxRetryCount framework then
              (t0, Return (Reply.mk 200 (Some (mkEntry (convert framework) true))))
            else (t0, Return (Reply.mk 404 None))
        end
      else if Response.status response =? 404 then
        (t0 ++ [EvLog LogWarn], Return (Reply.mk 404 None))
      else (t0, Throw (HttpError (Response.status response) "UnknownError"
                         (bodyMessage (Response.data response))))
  end.
Proof.
  unfold run, JobAttempt.get. cbn [truthy negb]. unfold bind at 1.
  destruct (JobAttempt.getFramework env name []) as [t0 [response|e]]; [|reflexivity].
  destruct (Response.status response =? 200).
  - destruct (Response.data response) as [framework|m]; [|reflexivity].
    destruct (jobAttemptIndex <? spec_retryPolicy_maxRetryCount framework).
    + destruct (metadata_uid framework) as [uid|]; [|reflexivity].
      unfold bind at 1.
      destruct (JobAttempt.esSearch env _ t0) as [t1 [[bs|n [|hit hits]]|e]]; reflexivity.
    + destruct (jobAttemptIndex =? spec_retryPolicy_maxRetryCount framework); reflexivity.
  - destruct (Response.status response =? 404); reflexivity.
Qed.

End Runs.

(** ** The live fetch and the boundary rule *)

Section Resolution.

Context {S : Type} (convert : Framework -> S) (env : Env).

Local Abbreviation listAttempts := (JobAttempt.list S convert env).
Local Abbreviation getAttempt := (JobAttempt.get S convert env).

Ltac with_response H :=
  rewrite ?list_run, ?get_run;
  destruct (getFramework_found env _ _ H) as (t0 & -> & Hs & _).


(** C10.  When the live fetch succeeds and the object has no uid, [list]
    returns [{status: 404, data: null}], and so does [get] for an index
    below [maxRetryCount]; neither sends a search to the historical
    index. *)
Theorem nil_uid_is_not_found (name : string) (jobAttemptIndex : Z) (framework : Framework) :
  fetchedLive env name framework ->
  metadata_uid framework = None ->
  (snd (run (listAttempts name)) = Return (Reply.mk 404 None)
   /\ searches (fst (run (listAttempts name))) = [])
  /\ (jobAttemptIndex < spec_retryPolicy_maxRetryCount framework ->
      snd (run (getAttempt name jobAttemptIndex)) = Return (Reply.mk 404 None)
      /\ searches (fst (run (getAttempt name jobAttemptIndex))) = []).
Proof.
  intros H Hu. split.
  - with_response H. cbn. rewrite Hu. cbn. split; [reflexivity | assumption].
  - intros Hlt. with_response H. cbn.
    apply Z.ltb_lt in Hlt. rewrite Hlt, Hu. cbn. split; [reflexivity | assumption].
Qed.

(** C6.  When the live fetch succeeds and the all-attempts query for the
    object's uid comes back with no group, [list] returns
    [{status: 404, data: null}], although the live object was found. *)
Theorem list_without_history_is_not_found (name : string) (framework : Framework)
    (uid : string) (client : EsClient) :
  fetchedLive env name framework ->
  metadata_uid framework = Some uid ->
  elasticSearchClient env = Some client ->
  search client (mkParams "framework" (JobAttempt.listBody uid))
  = Resolved (TermsResult []) ->
  snd (run (listAttempts name)) = Return (Reply.mk 404 None)
  /\ searches (fst (run (listAttempts name)))
     = [mkParams "framework" (JobAttempt.listBody uid)].
Proof.
  intros H Hu Hc Hq. with_response H. cbn. rewrite Hu.
  rewrite esSearch_run, Hc, Hq. cbn.
  rewrite searches_app, Hs. split; reflexivity.
Qed.

(** C1, as the code has it.  When the live fetch succeeds, [get] compares
    the index with the live object's [maxRetryCount].  Below it: if the
    object has a uid, a client is configured and the single-attempt search
    for that uid and index comes back, it is the only search sent and its
    hits decide the answer (none: status 404; otherwise the first hit's
    snapshot, converted, with [isLatest = false]); if the object has no
    uid the answer is status 404 and no search is sent.  Equal to it: the
    converted live object with [isLatest = true], and no search is sent.
    Above it: status 404 whatever the index holds, and no search is sent. *)
Theorem get_boundary_rule (name : string) (jobAttemptIndex : Z) (framework : Framework) :
  fetchedLive env name framework ->
  let maxRetryCount := spec_retryPolicy_maxRetryCount framework in
  let r := run (getAttempt name jobAttemptIndex) in
  (jobAttemptIndex < maxRetryCount ->
   forall uid client n hits,
     metadata_uid framework = Some uid ->
     elasticSearchClient env = Some client ->
     search client (mkParams "framework" (JobAttempt.getBody uid jobAttemptIndex))
     = Resolved (FilterResult n hits) ->
     snd r = Return (historyAnswer convert hits)
     /\ searches (fst r) = [mkParams "framework" (JobAttempt.getBody uid jobAttemptIndex)])
  /\ (jobAttemptIndex < maxRetryCount ->
      metadata_uid framework = None ->
      snd r = Return (Reply.mk 404 None) /\ searches (fst r) = [])
  /\ (jobAttemptIndex = maxRetryCount ->
      snd r = Return (Reply.mk 200 (Some (mkEntry (convert framework) true)))
      /\ searches (fst r) = [])
  /\ (jobAttemptIndex > maxRetryCount ->
      snd r = Return (Reply.mk 404 None) /\ searches (fst r) = []).
Proof.
  intros H maxRetryCount r. subst r maxRetryCount.
  with_response H. cbn.
  split; [|split; [|split]].
  - intros Hlt uid client n hits Hu Hc Hq.
    apply Z.ltb_lt in Hlt. rewrite Hlt, Hu, esSearch_run, Hc, Hq. cbn.
    rewrite searches_app, Hs. split; reflexivity.
  - intros Hlt Hu. apply Z.ltb_lt in Hlt. rewrite Hlt, Hu. cbn.
    split; [reflexivity | assumption].
  - intros ->. rewrite Z.ltb_irrefl, Z.eqb_refl. cbn.
    split; [reflexivity | assumption].
  - intros Hgt.
    assert (E1 : (jobAttemptIndex <? spec_retryPolicy_maxRetryCount framework) = false)
      by (apply Z.ltb_ge; lia).
    assert (E2 : (jobAttemptIndex =? spec_retryPolicy_maxRetryCount framework) = false)
      by (apply Z.eqb_neq; lia).
    rewrite E1, E2. cbn. split; [reflexivity | assumption].
Qed.

End Resolution.

(** Neither operation ever answers with status 501: the guard of lines 74
    and 184 tests the function [healthCheck] itself, which is truthy. *)
Lemma replies_are_200_or_404 {S : Type} (convert : Framework -> S) (env : Env)
    (name : string) (jobAttemptIndex : Z) :
  (forall r, snd (run (JobAttempt.list S convert env name)) = Return r ->
             Reply.status r = 200 \/ Reply.status r = 404)
  /\ (forall r, snd (run (JobAttempt.get S convert env name jobAttemptIndex)) = Return r ->
                Reply.status r = 200 \/ Reply.status r = 404).
Proof.
  split; intros r.
  - rewrite list_run.
    destruct (JobAttempt.getFramework env name []) as [t0 [response|e]]; [|discriminate].
    destruct (Response.status response =? 200).
    + destruct (Response.data response) as [framework|m]; [|discriminate].
      destruct (metadata_uid framework) as [uid|]; [|intros [= <-]; auto].
      destruct (JobAttempt.esSearch env _ t0) as [t1 [[[|b bs]|n hits]|e]];
        try discriminate; try (intros [= <-]; auto).
      destruct (mapM JobAttempt.firstSnapshot (b :: bs) t1) as [t2 [fs|e]];
        [intros [= <-]; auto | discriminate].
    + destruct (Response.status response =? 404); [intros [= <-]; auto | discriminate].
  - rewrite get_run.
    destruct (JobAttempt.getFramework env name []) as [t0 [response|e]]; [|discriminate].
    destruct (Response.status response =? 200).
    + destruct (Response.data response) as [framework|m]; [|discriminate].
      destruct (jobAttemptIndex <? spec_retryPolicy_maxRetryCount framework).
      * destruct (metadata_uid framework) as [uid|]; [|intros [= <-]; auto].
        destruct (JobAttempt.esSearch env _ t0) as [t1 [[bs|n [|hit hits]]|e]];
          try discriminate; intros [= <-]; auto.
      * destruct (jobAttemptIndex =? spec_retryPolicy_maxRetryCount framework);
          intros [= <-]; auto.
    + destruct (Response.status response =? 404); [intros [= <-]; auto | discriminate].
Qed.

(** C2, on the code.  In a deployment without a historical index the gate
    is closed ([healthCheck] returns [false]), yet [list] and [get] do not
    answer 501: they request the framework from the k8s API and then fail
    on the missing client. *)
Theorem closed_gate_is_not_consulted :
  run (JobAttempt.healthCheck Sample2.noIndex) = ([], Return false)
  /\ run (JobAttempt.list Framework (fun f => f) Sample2.noIndex "alice~job")
     = ([EvK8sGet (Sample.frameworkPath (encodeName "alice~job")) Sample.headers],
        Throw (TypeError "Cannot read property 'search' of undefined"))
  /\ run (JobAttempt.get Framework (fun f => f) Sample2.noIndex "alice~job" 1)
     = ([EvK8sGet (Sample.frameworkPath (encodeName "alice~job")) Sample.headers],
        Throw (TypeError "Cannot read property 'search' of undefined")).
Proof. repeat split; vm_compute; reflexivity. Qed.

(** C1 read without conditions fails below [maxRetryCount].  The live
    fetch succeeds with an object that has no uid: [get] answers 404 and
    sends no search.  The live fetch succeeds and no index is configured:
    [get] throws and answers nothing. *)
Lemma get_below_bound_without_search :
  (fetchedLive Sample2.anonymousJob "alice~job" Sample2.anonymous
   /\ run (JobAttempt.get Framework (fun f => f) Sample2.anonymousJob "alice~job" 1)
      = ([EvK8sGet (Sample.frameworkPath (encodeName "alice~job")) Sample.headers],
         Return (Reply.mk 404 None))
   /\ ~ boundaryRuleUnconditional (fun f => f) Sample2.anonymousJob "alice~job" 1
         Sample2.anonymous)
  /\ (fetchedLive Sample2.noIndex "alice~job" Sample.live
      /\ ~ boundaryRuleUnconditional (fun f => f) Sample2.noIndex "alice~job" 1
            Sample.live).
Proof.
  split; (split; [vm_compute; reflexivity|]).
  - split; [vm_compute; reflexivity|].
    intros (Hlt & _).
    destruct (Hlt ltac:(cbn; lia)) as (p & hits & Hs & _).
    vm_compute in Hs. discriminate.
  - intros (Hlt & _).
    destruct (Hlt ltac:(cbn; lia)) as (p & hits & Hs & _).
    vm_compute in Hs. discriminate.
Qed.

Lemma get_boundary_rule_witness :
  fetchedLive Sample2.k8s "alice~job" Sample.live
  /\ snd (run (JobAttempt.get Framework (fun f => f) Sample2.k8s "alice~job" 1))
     = Return (Reply.mk 200 (Some (mkEntry (Sample.snapshot 1 "attempt 1, final") false)))
  /\ snd (run (JobAttempt.get Framework (fun f => f) Sample2.k8s "alice~job" 3))
     = Return (Reply.mk 200 (Some (mkEntry Sample.live true)))
  /\ snd (run (JobAttempt.get Framework (fun f => f) Sample2.k8s "alice~job" 4))
     = Return (Reply.mk 404 None).
Proof.
  assert (F : fetchedLive Sample2.k8s "alice~job" Sample.live) by (vm_compute; reflexivity).
  split; [exact F|]. split; [|split].
  - destruct (get_boundary_rule (fun f => f) Sample2.k8s "alice~job" 1 Sample.live F)
      as (H & _).
    refine (proj1 (H ltac:(cbn; lia) "uid-1" Sample.healthy 2%nat
                     [mkHit (mkDoc 205 (Sample.snapshot 1 "attempt 1, final"))]
                     eq_refl eq_refl _)).
    vm_compute. reflexivity.
  - destruct (get_boundary_rule (fun f => f) Sample2.k8s "alice~job" 3 Sample.live F)
      as (_ & _ & H & _).
    exact (proj1 (H eq_refl)).
  - destruct (get_boundary_rule (fun f => f) Sample2.k8s "alice~job" 4 Sample.live F)
      as (_ & _ & _ & H).
    exact (proj1 (H ltac:(cbn; lia))).
Defined.


Lemma nil_uid_is_not_found_witness :
  fetchedLive Sample2.anonymousJob "alice~job" Sample2.anonymous
  /\ run (JobAttempt.list Framework (fun f => f) Sample2.anonymousJob "alice~job")
     = ([EvK8sGet (Sample.frameworkPath (encodeName "alice~job")) Sample.headers],
        Return (Reply.mk 404 None))
  /\ snd (run (JobAttempt.get Framework (fun f => f) Sample2.anonymousJob "alice~job" 1))
     = Return (Reply.mk 404 None).
Proof.
  assert (F : fetchedLive Sample2.anonymousJob "alice~job" Sample2.anonymous)
    by (vm_compute; reflexivity).
  split; [exact F|].
  destruct (nil_uid_is_not_found (fun f => f) Sample2.anonymousJob "alice~job" 1
              Sample2.anonymous F eq_refl) as (_ & H).
  split; [vm_compute; reflexivity|].
  exact (proj1 (H ltac:(cbn; lia))).
Defined.

Lemma list_without_history_is_not_found_witness :
  fetchedLive Sample2.emptyHistory "alice~job" Sample.live
  /\ snd (run (JobAttempt.list Framework (fun f => f) Sample2.emptyHistory "alice~job"))
     = Return (Reply.mk 404 None).
Proof.
  assert (F : fetchedLive Sample2.emptyHistory "alice~job" Sample.live)
    by (vm_compute; reflexivity).
  split; [exact F|].
  exact (proj1 (list_without_history_is_not_found (fun f => f) Sample2.emptyHistory
                  "alice~job" Sample.live "uid-1"
                  (HistoryIndex.client (Resolved 200) []) F eq_refl eq_refl eq_refl)).
Defined.

(** ** The historical index: order and latest snapshots *)

Section Sorting.

Context {A : Type} (k : A -> Z) (o : SortOrder).

Local Abbreviation inOrder := (fun a b : A => HistoryIndex.before o (k a) (k b) = true).

Lemma before_total (a b : Z) :
  HistoryIndex.before o a b = false -> HistoryIndex.before o b a = true.
Proof. destruct o; cbn; lia. Qed.

Lemma before_trans (a b c : Z) :
  HistoryIndex.before o a b = true -> HistoryIndex.before o b c = true ->
  HistoryIndex.before o a c = true.
Proof. destruct o; cbn; lia. Qed.

Lemma insertBy_In (x y : A) (l : list A) :
  In y (HistoryIndex.insertBy k o x l) <-> y = x \/ In y l.
Proof.
  induction l as [|z l IH]; cbn.
  - intuition congruence.
  - destruct (HistoryIndex.before o (k x) (k z)); cbn; [intuition congruence|].
    rewrite IH. intuition congruence.
Qed.

Lemma sortBy_cons (x : A) (l : list A) :
  HistoryIndex.sortBy k o (x :: l)
  = HistoryIndex.insertBy k o x (HistoryIndex.sortBy k o l).
Proof. reflexivity. Qed.

Lemma sortBy_In (y : A) (l : list A) : In y (HistoryIndex.sortBy k o l) <-> In y l.
Proof.
  induction l as [|x l IH]; [cbn; tauto|].
  rewrite sortBy_cons, insertBy_In, IH. cbn. intuition congruence.
Qed.

Lemma insertBy_length (x : A) (l : list A) :
  List.length (HistoryIndex.insertBy k o x l) = Datatypes.S (List.length l).
Proof.
  induction l as [|z l IH]; cbn; [reflexivity|].
  destruct (HistoryIndex.before o (k x) (k z)); cbn; [reflexivity | now rewrite IH].
Qed.

Lemma sortBy_length (l : list A) :
  List.length (HistoryIndex.sortBy k o l) = List.length l.
Proof.
  induction l as [|x l IH]; [reflexivity|].
  rewrite sortBy_cons, insertBy_length, IH. reflexivity.
Qed.

Lemma insertBy_sorted (x : A) (l : list A) :
  StronglySorted inOrder l -> StronglySorted inOrder (HistoryIndex.insertBy k o x l).
Proof.
  induction 1 as [|z l Hl IH Hz]; cbn.
  - constructor; constructor.
  - destruct (HistoryIndex.before o (k x) (k z)) eqn:E.
    + constructor; [constructor; assumption|].
      constructor; [exact E|].
      eapply Forall_impl; [|exact Hz].
      intros a Ha. exact (before_trans _ _ _ E Ha).
    + constructor; [exact IH|].
      apply Forall_forall. intros a Ha. apply insertBy_In in Ha.
      destruct Ha as [-> | Ha]; [exact (before_total _ _ E)|].
      rewrite Forall_forall in Hz. exact (Hz a Ha).
Qed.

Lemma sortBy_sorted (l : list A) : StronglySorted inOrder (HistoryIndex.sortBy k o l).
Proof.
  induction l as [|x l IH]; [constructor|].
  rewrite sortBy_cons. now apply insertBy_sorted.
Qed.

Lemma insertBy_NoDup (x : A) (l : list A) :
  ~ In x l -> NoDup l -> NoDup (HistoryIndex.insertBy k o x l).
Proof.
  induction l as [|z l IH]; cbn; intros Hx Hl.
  - constructor; [tauto | constructor].
  - destruct (HistoryIndex.before o (k x) (k z)).
    + constructor; [cbn; tauto | exact Hl].
    + inversion Hl as [|z' l' Hz Hl']; subst.
      constructor; [|apply IH; tauto].
      rewrite insertBy_In. intros [-> | Hin]; tauto.
Qed.

Lemma sortBy_NoDup (l : list A) : NoDup l -> NoDup (HistoryIndex.sortBy k o l).
Proof.
  induction 1 as [|x l Hx Hl IH]; [constructor|].
  rewrite sortBy_cons.
  apply insertBy_NoDup; [rewrite sortBy_In; exact Hx | exact IH].
Qed.

End Sorting.

Lemma StronglySorted_firstn {A} (R : A -> A -> Prop) (n : nat) (l : list A) :
  StronglySorted R l -> StronglySorted R (firstn n l).
Proof.
  intros H. revert n. induction H as [|x l Hl IH Hx]; intros [|n]; cbn;
    try constructor.
  - apply IH.
  - apply Forall_forall. intros a Ha.
    rewrite Forall_forall in Hx. apply Hx.
    rewrite <- (firstn_skipn n l). apply in_or_app. now left.
Qed.

Lemma NoDup_firstn {A} (n : nat) (l : list A) : NoDup l -> NoDup (firstn n l).
Proof.
  intros H. revert n. induction H as [|x l Hx Hl IH]; intros [|n]; cbn;
    try constructor.
  - intros Ha. apply Hx. rewrite <- (firstn_skipn n l). apply in_or_app. now left.
  - apply IH.
Qed.

Lemma descending_strict (l : list Z) :
  StronglySorted (fun a b => HistoryIndex.before Desc a b = true) l ->
  NoDup l -> StronglySorted Z.gt l.
Proof.
  induction 1 as [|x l Hl IH Hx]; intros Hn; [constructor|].
  inversion Hn as [|x' l' Hnx Hn']; subst.
  constructor; [exact (IH Hn')|].
  apply Forall_forall. intros a Ha.
  rewrite Forall_forall in Hx. specialize (Hx a Ha). cbn in Hx.
  assert (a <> x) by (intros ->; exact (Hnx Ha)). lia.
Qed.

(** The keys of a descending terms aggregation strictly decrease. *)
Lemma keys_descending (ds : list Doc) : StronglySorted Z.gt (HistoryIndex.keys Desc ds).
Proof.
  unfold HistoryIndex.keys. apply descending_strict.
  - apply StronglySorted_firstn. apply (sortBy_sorted (fun id => id)).
  - apply NoDup_firstn, sortBy_NoDup, NoDup_nodup.
Qed.

Lemma keys_In (o : SortOrder) (ds : list Doc) (id : Z) :
  In id (HistoryIndex.keys o ds) -> exists d, In d ds /\ HistoryIndex.attemptOf d = id.
Proof.
  unfold HistoryIndex.keys. intros H.
  assert (H' : In id (HistoryIndex.sortBy (fun id => id) o
                        (nodup Z.eq_dec (map HistoryIndex.attemptOf ds)))).
  { rewrite <- (firstn_skipn HistoryIndex.termsDefaultSize _).
    apply in_or_app. now left. }
  apply sortBy_In, nodup_In, in_map_iff in H'.
  destruct H' as (d & E & Hd). exists d. tauto.
Qed.

Lemma group_In (ds : list Doc) (id : Z) (d : Doc) :
  In d (HistoryIndex.group ds id) <-> In d ds /\ HistoryIndex.attemptOf d = id.
Proof.
  unfold HistoryIndex.group. rewrite filter_In, Z.eqb_eq. tauto.
Qed.

(** [top_hits], sorted by collection time descending with size 1, keeps
    one document of a non-empty group: one collected latest. *)
Lemma topHits_latest (ds : list Doc) :
  ds <> [] ->
  exists d,
    HistoryIndex.topHits JobAttempt.latestHits ds = [mkHit d]
    /\ In d ds
    /\ forall d', In d' ds -> collectTime d' <= collectTime d.
Proof.
  intros Hne. unfold HistoryIndex.topHits, JobAttempt.latestHits. cbn.
  pose proof (sortBy_sorted collectTime Desc ds) as Hs.
  pose proof (sortBy_length collectTime Desc ds) as Hlen.
  pose proof (fun y => sortBy_In collectTime Desc y ds) as Hin.
  destruct (HistoryIndex.sortBy collectTime Desc ds) as [|d rest].
  - destruct ds; [congruence | discriminate].
  - exists d. split; [reflexivity|]. split; [apply Hin; now left|].
    intros d' Hd'. apply Hin in Hd'.
    inversion Hs as [|x l Hl Hx]; subst.
    destruct Hd' as [<- | Hd']; [lia|].
    rewrite Forall_forall in Hx. specialize (Hx d' Hd'). cbn in Hx. lia.
Qed.

Lemma mapM_firstSnapshot (buckets : list Bucket) (snapshots : list Framework) (t : Trace) :
  Forall2 headSnapshot buckets snapshots ->
  mapM JobAttempt.firstSnapshot buckets t = (t, Return snapshots).
Proof.
  induction 1 as [|b s bs ss (hit & others & Hb & Hs) _ IH]; [reflexivity|].
  cbn [mapM]. unfold bind at 1. unfold JobAttempt.firstSnapshot at 1.
  rewrite Hb. cbn. unfold bind at 1. rewrite IH, Hs. reflexivity.
Qed.

(** The buckets the index makes for a uid: each has a first hit; the
    snapshots of these hits carry the bucket keys and are latest ones. *)
Lemma index_buckets (uid : string) (docs : list Doc) (ks : list Z) :
  let ds := filter (HistoryIndex.hasUid uid) docs in
  (forall id, In id ks -> exists d, In d ds /\ HistoryIndex.attemptOf d = id) ->
  exists snapshots,
    Forall2 headSnapshot (map (HistoryIndex.bucketOf JobAttempt.latestHits ds) ks) snapshots
    /\ map status_attemptStatus_id snapshots = ks
    /\ Forall (isLatestSnapshot uid docs) snapshots.
Proof.
  intros ds. induction ks as [|id ks IH]; intros Hk.
  - exists []. repeat split; constructor.
  - destruct IH as (ss & H2 & Hm & Hl); [intros i Hi; apply Hk; now right|].
    destruct (Hk id (or_introl eq_refl)) as (d & Hd & Hid).
    assert (Hne : HistoryIndex.group ds id <> []).
    { intros E. assert (Hg : In d (HistoryIndex.group ds id)) by now apply group_In.
      rewrite E in Hg. exact Hg. }
    destruct (topHits_latest _ Hne) as (d0 & Ht & Hin & Hmax).
    apply group_In in Hin. destruct Hin as (Hin & Hid0).
    apply filter_In in Hin. destruct Hin as (Hdocs & Huid).
    exists (objectSnapshot d0 :: ss). split; [|split].
    + cbn [map]. constructor; [|exact H2].
      exists (mkHit d0), []. split; [exact Ht | reflexivity].
    + cbn [map]. rewrite Hm. f_equal. exact Hid0.
    + constructor; [|exact Hl].
      exists d0. repeat split; try assumption.
      intros d' Hd' Hu' Ha'. apply Hmax. apply group_In. split.
      * apply filter_In. split; assumption.
      * rewrite Ha'. exact Hid0.
Qed.

Lemma index_list_answer (health : Outcome Z) (docs : list Doc) (uid : string) :
  search (HistoryIndex.client health docs) (mkParams "framework" (JobAttempt.listBody uid))
  = Resolved
      (TermsResult
         (map (HistoryIndex.bucketOf JobAttempt.latestHits
                 (filter (HistoryIndex.hasUid uid) docs))
            (HistoryIndex.keys Desc (filter (HistoryIndex.hasUid uid) docs)))).
Proof. reflexivity. Qed.

Lemma map_key_buckets (th : TopHits) (ds : list Doc) (ks : list Z) :
  map key (map (HistoryIndex.bucketOf th ds) ks) = ks.
Proof. rewrite map_map. cbn. apply map_id. Qed.

Section History.

Context {S : Type} (convert : Framework -> S) (env : Env).

Local Abbreviation listAttempts := (JobAttempt.list S convert env).

(** C4.  When the live fetch succeeds and the all-attempts query for the
    object's uid comes back with at least one group, [list] returns
    status 200 and a sequence that starts with the converted live object,
    [isLatest = true], and goes on with one entry per group, in the order
    of the groups, made of the snapshot of the group's first hit with
    [isLatest = false].  Asked of the historical index, the groups have
    strictly decreasing attempt identifiers, every group has a hit, and
    each entry is the latest snapshot of the attempt of its group. *)
Theorem list_live_first_then_history (name : string) (framework : Framework)
    (uid : string) (client : EsClient) (b : Bucket) (bs : list Bucket) :
  fetchedLive env name framework ->
  metadata_uid framework = Some uid ->
  elasticSearchClient env = Some client ->
  search client (mkParams "framework" (JobAttempt.listBody uid))
  = Resolved (TermsResult (b :: bs)) ->
  (forall snapshots,
      Forall2 headSnapshot (b :: bs) snapshots ->
      snd (run (listAttempts name))
      = Return (Reply.mk 200
                  (Some (mkEntry (convert framework) true
                         :: map (historyEntry convert) snapshots)))
      /\ searches (fst (run (listAttempts name)))
         = [mkParams "framework" (JobAttempt.listBody uid)])
  /\ (forall health docs,
      client = HistoryIndex.client health docs ->
      exists snapshots,
        Forall2 headSnapshot (b :: bs) snapshots
        /\ map status_attemptStatus_id snapshots = map key (b :: bs)
        /\ StronglySorted Z.gt (map status_attemptStatus_id snapshots)
        /\ Forall (isLatestSnapshot uid docs) snapshots).
Proof.
  intros H Hu Hc Hq. split.
  - intros snapshots H2. rewrite list_run.
    destruct (getFramework_found env _ _ H) as (t0 & -> & Hs & _).
    cbn -[mapM]. rewrite Hu, esSearch_run, Hc, Hq.
    rewrite (mapM_firstSnapshot _ _ _ H2). cbn.
    rewrite searches_app, Hs. split; reflexivity.
  - intros health docs ->. rewrite index_list_answer in Hq.
    injection Hq as Hq.
    destruct (index_buckets uid docs
                (HistoryIndex.keys Desc (filter (HistoryIndex.hasUid uid) docs)))
      as (ss & H2 & Hm & Hl); [intros id Hid; exact (keys_In _ _ _ Hid)|].
    exists ss. rewrite <- Hq, map_key_buckets, Hm.
    repeat split; try assumption. apply keys_descending.
Qed.

End History.

Lemma list_live_first_then_history_witness :
  fetchedLive Sample2.k8s "alice~job" Sample.live
  /\ snd (run (JobAttempt.list Framework (fun f => f) Sample2.k8s "alice~job"))
     = Return (Reply.mk 200
         (Some [ mkEntry Sample.live true;
                 mkEntry (Sample.snapshot 1 "attempt 1, final") false;
                 mkEntry (Sample.snapshot 0 "attempt 0, final") false ]))
  /\ exists snapshots,
       map status_attemptStatus_id snapshots = [1; 0]
       /\ StronglySorted Z.gt (map status_attemptStatus_id snapshots).
Proof.
  assert (F : fetchedLive Sample2.k8s "alice~job" Sample.live) by (vm_compute; reflexivity).
  split; [exact F|].
  destruct (list_live_first_then_history (fun f => f) Sample2.k8s "alice~job"
              Sample.live "uid-1" Sample.healthy
              (mkBucket 1 2 [mkHit (mkDoc 205 (Sample.snapshot 1 "attempt 1, final"))])
              [mkBucket 0 2 [mkHit (mkDoc 110 (Sample.snapshot 0 "attempt 0, final"))]]
              F eq_refl eq_refl ltac:(vm_compute; reflexivity)) as (HA & HB).
  split.
  - refine (proj1 (HA [Sample.snapshot 1 "attempt 1, final";
                       Sample.snapshot 0 "attempt 0, final"] _)).
    repeat constructor; eexists; eexists; split; reflexivity.
  - destruct (HB (Resolved 200) Sample.docs eq_refl) as (ss & _ & Hm & Hs & _).
    exists ss. split; assumption.
Defined.

(** C5 as stated fails: with snapshots of the running attempt in the
    index, [list] succeeds and reports attempt 2 twice, first from the
    live object and then from history. *)
Lemma list_reports_current_attempt_twice :
  exists r,
    snd (run (JobAttempt.list Framework (fun f => f) Sample2.currentInHistory "alice~job"))
    = Return r
    /\ Reply.status r = 200
    /\ Reply.data r
       = Some [ mkEntry Sample.live true;
                mkEntry (Sample.snapshot 2 "attempt 2, running") false;
                mkEntry (Sample.snapshot 1 "attempt 1, final") false;
                mkEntry (Sample.snapshot 0 "attempt 0, final") false ]
    /\ ~ liveReportedOnce status_attemptStatus_id r.
Proof.
  eexists. split; [vm_compute; reflexivity|].
  split; [reflexivity|]. split; [reflexivity|].
  cbn. intros H. inversion H as [|e l Hneq _]. apply Hneq. reflexivity.
Qed.

Section LiveOnce.

Context {S : Type} (convert : Framework -> S) (env : Env).

(** C5, as the code has it.  Let the converter keep the attempt
    identifier.  In every successful result of [list] the first entry is
    the converted live object with [isLatest = true] and every later
    entry has [isLatest = false].  The groups of the index are not
    filtered: no later entry has the live object's attempt identifier
    provided that the index holds no document of this uid with that
    identifier. *)
Theorem list_reports_live_once (idOf : S -> Z) (name : string) (framework : Framework)
    (uid : string) (r : Reply.t (list (Entry S))) :
  (forall f, idOf (convert f) = status_attemptStatus_id f) ->
  fetchedLive env name framework ->
  metadata_uid framework = Some uid ->
  snd (run (JobAttempt.list S convert env name)) = Return r ->
  Reply.status r = 200 ->
  (exists history,
      Reply.data r = Some (mkEntry (convert framework) true :: history)
      /\ Forall (fun e => isLatest e = false) history)
  /\ (forall health docs,
      elasticSearchClient env = Some (HistoryIndex.client health docs) ->
      (forall d, In d docs -> HistoryIndex.hasUid uid d = true ->
                 HistoryIndex.attemptOf d <> status_attemptStatus_id framework) ->
      liveReportedOnce idOf r).
Proof.
  intros Hid H Hu Hr H200. rewrite list_run in Hr.
  destruct (getFramework_found env _ _ H) as (t0 & Hf & _). rewrite Hf in Hr.
  cbn -[mapM] in Hr. rewrite Hu, esSearch_run in Hr.
  destruct (elasticSearchClient env) as [client|] eqn:Ec; [|discriminate].
  destruct (search client _) as [[[|b bs]|n hits]|e] eqn:Eq; cbn -[mapM] in Hr;
    try discriminate;
    try (injection Hr as <-; cbn in H200; discriminate).
  destruct (mapM JobAttempt.firstSnapshot (b :: bs) _) as [t2 [fs|e]] eqn:Em;
    [|discriminate].
  cbn in Hr. injection Hr as <-. split.
  - eexists. split; [reflexivity|].
    apply Forall_forall. intros e He. apply in_map_iff in He.
    destruct He as (s & <- & _). reflexivity.
  - intros health docs [= ->] Hno.
    rewrite index_list_answer in Eq. injection Eq as Eq.
    destruct (index_buckets uid docs
                (HistoryIndex.keys Desc (filter (HistoryIndex.hasUid uid) docs)))
      as (ss & H2 & _ & Hl); [intros id Hi; exact (keys_In _ _ _ Hi)|].
    rewrite Eq in H2. rewrite (mapM_firstSnapshot _ _ _ H2) in Em.
    injection Em as _ <-.
    cbn. apply Forall_forall. intros e He. apply in_map_iff in He.
    destruct He as (s & <- & Hs). cbn. rewrite !Hid.
    rewrite Forall_forall in Hl. destruct (Hl s Hs) as (d & Hd & Hud & <- & _).
    exact (Hno d Hd Hud).
Qed.

End LiveOnce.

Lemma list_reports_live_once_witness :
  fetchedLive Sample2.k8s "alice~job" Sample.live
  /\ liveReportedOnce status_attemptStatus_id
       (Reply.mk 200
          (Some [ mkEntry Sample.live true;
                  mkEntry (Sample.snapshot 1 "attempt 1, final") false;
                  mkEntry (Sample.snapshot 0 "attempt 0, final") false ])).
Proof.
  assert (F : fetchedLive Sample2.k8s "alice~job" Sample.live) by (vm_compute; reflexivity).
  split; [exact F|].
  refine (proj2 (list_reports_live_once (fun f => f) Sample2.k8s status_attemptStatus_id
                   "alice~job" Sample.live "uid-1"
                   (Reply.mk 200
                      (Some [ mkEntry Sample.live true;
                              mkEntry (Sample.snapshot 1 "attempt 1, final") false;
                              mkEntry (Sample.snapshot 0 "attempt 0, final") false ]))
                   (fun f => eq_refl) F eq_refl _ eq_refl)
            (Resolved 200) Sample.docs eq_refl _).
  - vm_compute. reflexivity.
  - intros d Hd Hu. cbn in Hd.
    repeat (destruct Hd as [<- | Hd]; [cbn; try lia; cbn in Hu; discriminate|]).
    destruct Hd.
Defined.

(** * Further properties of the resolver *)

(** ** The name encoder, continued *)

Section EncoderMore.

Lemma hex_is_alnum (c : ascii) :
  JsString.isHexDigit c = true -> JsString.isLowerAlnum c = true.
Proof.
  unfold JsString.isHexDigit, JsString.isLowerAlnum.
  generalize (JsString.code c). intros z H.
  apply orb_true_iff in H. apply orb_true_iff.
  destruct H as [H | H]; apply andb_true_iff in H; destruct H as (H1 & H2).
  - right. apply andb_true_iff. split; assumption.
  - left. apply andb_true_iff. split; [assumption|].
    apply Z.leb_le in H2. apply Z.leb_le. lia.
Qed.

Lemma all_impl (p q : ascii -> bool) (s : string) :
  (forall c, p c = true -> q c = true) ->
  JsString.all p s = true -> JsString.all q s = true.
Proof.
  intros Hpq. induction s as [|c s IH]; cbn; [reflexivity|].
  intros H. apply andb_true_iff in H. destruct H as (Hc & Hs).
  rewrite (Hpq c Hc), (IH Hs). reflexivity.
Qed.

(** A string made of characters of a class that excludes [c] does not
    contain [c]. *)
Lemma all_excludes (p : ascii -> bool) (c : ascii) (s : string) :
  p c = false -> JsString.all p s = true ->
  JsString.includes s (String c EmptyString) = false.
Proof.
  intros Hc. induction s as [|d s IH]; cbn; [reflexivity|].
  intros H. apply andb_true_iff in H. destruct H as (Hd & Hs).
  rewrite (IH Hs), orb_false_r, andb_true_r.
  destruct (Ascii.eqb_spec c d) as [<- | _]; [congruence | reflexivity].
Qed.

Lemma all_excludes_prefix (p : ascii -> bool) (c : ascii) (rest s : string) :
  p c = false -> JsString.all p s = true ->
  JsString.startsWith s (String c rest) = false.
Proof.
  intros Hc. destruct s as [|d s]; cbn; [reflexivity|].
  intros H. apply andb_true_iff in H. destruct H as (Hd & _).
  destruct (Ascii.eqb_spec c d) as [<- | _]; [congruence | reflexivity].
Qed.

Lemma lowerChar_alnum (c : ascii) :
  JsString.isLowerAlnum c = true -> JsString.lowerChar c = c.
Proof.
  unfold JsString.lowerChar, JsString.isUpper, JsString.isLowerAlnum.
  generalize (JsString.code c). intros z H.
  assert (R : 97 <= z <= 122 \/ 48 <= z <= 57).
  { apply orb_true_iff in H. destruct H as [H | H];
      apply andb_true_iff in H; destruct H as (H1 & H2);
      apply Z.leb_le in H1, H2; lia. }
  assert (E1 : ((65 <=? z) && (z <=? 90)) = false).
  { apply andb_false_iff. destruct R; [right | left]; apply Z.leb_gt; lia. }
  assert (E2 : ((192 <=? z) && (z <=? 222) && negb (z =? 215)) = false).
  { apply andb_false_iff. left. apply andb_false_iff. left. apply Z.leb_gt. lia. }
  rewrite E1, E2. reflexivity.
Qed.

Lemma convertName_alnum (s : string) :
  JsString.all JsString.isLowerAlnum s = true -> convertName s = s.
Proof.
  unfold convertName. induction s as [|c s IH]; cbn; [reflexivity|].
  intros H. apply andb_true_iff in H. destruct H as (Hc & Hs).
  rewrite (lowerChar_alnum c Hc), Hc, (IH Hs). reflexivity.
Qed.

Lemma convertName_is_alnum (s : string) :
  JsString.all JsString.isLowerAlnum (convertName s) = true.
Proof. apply filter_all. Qed.

Lemma md5hex_is_hex (s : string) :
  JsString.all JsString.isHexDigit (Md5.md5hex s) = true.
Proof. apply hex_all_hex. Qed.

End EncoderMore.

(** X1.  Whatever the name, the key made by [encodeName] consists of
    characters of [a-z0-9] only; in particular it never contains the
    separator '~'. *)
Theorem encodeName_charset (name : string) :
  JsString.all JsString.isLowerAlnum (encodeName name) = true
  /\ JsString.includes (encodeName name) "~" = false.
Proof.
  assert (A : JsString.all JsString.isLowerAlnum (encodeName name) = true).
  { unfold encodeName.
    destruct (JsString.startsWith name "unknown" || negb (JsString.includes name "~")).
    - apply convertName_is_alnum.
    - apply (all_impl _ _ _ hex_is_alnum), md5hex_is_hex. }
  split; [exact A|].
  apply (all_excludes JsString.isLowerAlnum); [reflexivity | exact A].
Qed.

(** X2.  [convertName] is idempotent, and the strings it leaves unchanged
    are exactly the strings over [a-z0-9]. *)
Theorem convertName_idempotent (name : string) :
  convertName (convertName name) = convertName name
  /\ (convertName name = name <-> JsString.all JsString.isLowerAlnum name = true).
Proof.
  split.
  - apply convertName_alnum, convertName_is_alnum.
  - split.
    + intros E. rewrite <- E. apply convertName_is_alnum.
    + apply convertName_alnum.
Qed.

(** X3.  The key of a name that is hashed (no leading marker, a '~'
    inside) is a fixed point of the encoder: encoding the key again gives
    the key. *)
Theorem encodeName_hashed_key_is_fixed (name : string) :
  JsString.startsWith name "unknown" = false ->
  JsString.includes name "~" = true ->
  encodeName (encodeName name) = encodeName name.
Proof.
  intros Hs Hi.
  assert (E : encodeName name = Md5.md5hex name)
    by (unfold encodeName; rewrite Hs, Hi; reflexivity).
  rewrite E. pose proof (md5hex_is_hex name) as Hh.
  pose proof (all_impl _ _ _ hex_is_alnum Hh) as Ha.
  unfold encodeName.
  rewrite (all_excludes_prefix JsString.isHexDigit "u" "nknown" _ eq_refl Hh).
  rewrite (all_excludes JsString.isLowerAlnum "~" _ eq_refl Ha). cbn [orb negb].
  rewrite stripLeading_absent
    by exact (all_excludes_prefix JsString.isHexDigit "u" "nknown" _ eq_refl Hh).
  apply convertName_alnum, Ha.
Qed.

Lemma encodeName_hashed_key_is_fixed_witness :
  encodeName (encodeName "alice~job") = encodeName "alice~job".
Proof. exact (encodeName_hashed_key_is_fixed "alice~job" eq_refl eq_refl). Defined.

(** X4.  A leading marker is invisible in the key: a name without '~' and
    without a leading marker gets the same key as that name with the
    marker 'unknown' put in front. *)
Theorem encodeName_marker_collides (name : string) :
  JsString.startsWith name "unknown" = false ->
  JsString.includes name "~" = false ->
  encodeName ("unknown" ++ name)%string = encodeName name.
Proof.
  intros Hs Hi. unfold encodeName at 2. rewrite Hs, Hi. cbn [orb negb].
  rewrite (stripLeading_absent _ _ Hs).
  unfold encodeName. rewrite stripLeading_marker. reflexivity.
Qed.

Lemma encodeName_marker_collides_witness :
  encodeName "unknownJob-7" = encodeName "Job-7".
Proof. exact (encodeName_marker_collides "Job-7" eq_refl eq_refl). Defined.

(** ** Contacts made by the operations *)

Lemma probes_app (t u : Trace) : probes (t ++ u) = (probes t + probes u)%nat.
Proof. unfold probes. rewrite filter_app, length_app. reflexivity. Qed.

(** X5.  [healthCheck] contacts the historical index only: it sends no
    search and no request to the k8s API, and it sends one health probe
    when a client is configured and none otherwise. *)
Theorem healthCheck_effects (env : Env) (t : Trace) :
  searches (fst (JobAttempt.healthCheck env t)) = searches t
  /\ k8sCalls (fst (JobAttempt.healthCheck env t)) = k8sCalls t
  /\ probes (fst (JobAttempt.healthCheck env t))
     = (probes t + match elasticSearchClient env with Some _ => 1 | None => 0 end)%nat.
Proof.
  rewrite healthCheck_run.
  destruct (elasticSearchClient env) as [client|]; cbn [fst].
  - destruct (cat_health client) as [code|e]; [destruct (code =? 200)|]; cbn [fst];
      rewrite ?searches_app, ?k8sCalls_app, ?probes_app; cbn;
      rewrite ?app_nil_r, ?Nat.add_0_r; repeat split; reflexivity.
  - rewrite Nat.add_0_r. repeat split; reflexivity.
Qed.

Lemma mapM_firstSnapshot_pure (buckets : list Bucket) (t : Trace) :
  mapM JobAttempt.firstSnapshot buckets t = (t, firstSnapshots buckets).
Proof.
  induction buckets as [|b bs IH]; [reflexivity|].
  cbn [mapM firstSnapshots]. unfold bind at 1. unfold JobAttempt.firstSnapshot at 1.
  destruct (bucket_hits b) as [|hit hits]; [reflexivity|].
  cbn. unfold bind at 1. rewrite IH.
  destruct (firstSnapshots bs); reflexivity.
Qed.

Lemma firstSnapshots_length (buckets : list Bucket) (snapshots : list Framework) :
  firstSnapshots buckets = Return snapshots ->
  List.length snapshots = List.length buckets.
Proof.
  revert snapshots. induction buckets as [|b bs IH]; cbn; intros ss H.
  - injection H as <-. reflexivity.
  - destruct (bucket_hits b) as [|hit hits]; [discriminate|].
    destruct (firstSnapshots bs) as [ss'|e]; [|discriminate].
    injection H as <-. cbn. now rewrite (IH ss' eq_refl).
Qed.

Lemma firstSnapshots_without_hits (buckets : list Bucket) :
  Exists (fun b => bucket_hits b = []) buckets ->
  exists what, firstSnapshots buckets = Throw (TypeError what).
Proof.
  induction 1 as [b bs Hb | b bs _ IH]; cbn.
  - rewrite Hb. eexists. reflexivity.
  - destruct (bucket_hits b) as [|hit hits]; [eexists; reflexivity|].
    destruct IH as (what & ->). eexists. reflexivity.
Qed.

Section Contacts.

Context {S : Type} (convert : Framework -> S) (env : Env).

Local Abbreviation listAttempts := (JobAttempt.list S convert env).
Local Abbreviation getAttempt := (JobAttempt.get S convert env).

(** The request to the k8s API, whatever it yields: one call, no search;
    a response is the live response, an exception is the rejection. *)
Lemma getFramework_cases (name : string) :
  exists t0 res,
    JobAttempt.getFramework env name [] = (t0, res)
    /\ k8sCalls t0 = [launcherConfig_frameworkPath env (encodeName name)]
    /\ searches t0 = []
    /\ match res with
       | Return r => liveResponse (fetchOutcome env name) = Some r
       | Throw ex =>
           exists e, ex = Thrown e /\ fetchOutcome env name = Rejected e
                     /\ JsError.response e = None
       end.
Proof.
  rewrite getFramework_run. cbn zeta.
  destruct (fetchOutcome env name) as [r|e] eqn:E.
  - eexists _, _. repeat split.
  - destruct (JsError.response e) as [r|] eqn:Er.
    + eexists _, _. split; [reflexivity|]. repeat split. exact Er.
    + eexists _, _. split; [reflexivity|]. repeat split. exists e. auto.
Qed.

Lemma status_200_framework (r : Response.t) (framework : Framework) :
  (Response.status r =? 200) = true ->
  Response.data r = FrameworkBody framework ->
  r = Response.mk 200 (FrameworkBody framework).
Proof.
  destruct r as [st d]. cbn. intros H ->. apply Z.eqb_eq in H. now subst.
Qed.

(** X6.  Every run of [list] and of [get], however it ends, sends exactly
    one request to the k8s API, for the path of the encoded name.  It
    sends at most one search; a search is sent only after a successful
    live fetch of an object with a uid, it goes to the index 'framework'
    and is scoped to that uid (and, for [get], to the requested index,
    which is then below [maxRetryCount]). *)
Theorem operations_contacts (name : string) (jobAttemptIndex : Z) :
  k8sCalls (fst (run (listAttempts name)))
  = [launcherConfig_frameworkPath env (encodeName name)]
  /\ k8sCalls (fst (run (getAttempt name jobAttemptIndex)))
     = [launcherConfig_frameworkPath env (encodeName name)]
  /\ (searches (fst (run (listAttempts name))) = []
      \/ exists framework uid,
           fetchedLive env name framework
           /\ metadata_uid framework = Some uid
           /\ searches (fst (run (listAttempts name)))
              = [mkParams "framework" (JobAttempt.listBody uid)])
  /\ (searches (fst (run (getAttempt name jobAttemptIndex))) = []
      \/ exists framework uid,
           fetchedLive env name framework
           /\ metadata_uid framework = Some uid
           /\ jobAttemptIndex < spec_retryPolicy_maxRetryCount framework
           /\ searches (fst (run (getAttempt name jobAttemptIndex)))
              = [mkParams "framework" (JobAttempt.getBody uid jobAttemptIndex)]).
Proof.
  rewrite list_run, get_run.
  destruct (getFramework_cases name) as (t0 & res & -> & Hk & Hs & Hres).
  destruct res as [r|ex]; [|cbn; auto].
  destruct (Response.status r =? 200) eqn:E200.
  - destruct (Response.data r) as [framework|m] eqn:Ed; [|cbn; auto].
    pose proof (status_200_framework _ _ E200 Ed) as ->.
    assert (F : fetchedLive env name framework) by exact Hres.
    destruct (metadata_uid framework) as [uid|] eqn:Eu.
    + rewrite !esSearch_run.
      split; [|split; [|split]].
      * destruct (elasticSearchClient env) as [client|]; [|exact Hk].
        destruct (search client _) as [[[|b bs]|n hits]|e]; cbn [fst];
          rewrite ?mapM_firstSnapshot_pure;
          try destruct (firstSnapshots (b :: bs)); cbn [fst];
          rewrite k8sCalls_app, Hk; reflexivity.
      * destruct (jobAttemptIndex <? _);
          [|destruct (jobAttemptIndex =? _); exact Hk].
        destruct (elasticSearchClient env) as [client|]; [|exact Hk].
        destruct (search client _) as [[bs|n hits]|e]; cbn [fst];
          rewrite k8sCalls_app, Hk; reflexivity.
      * destruct (elasticSearchClient env) as [client|]; [|left; exact Hs].
        right. exists framework, uid. repeat split; try assumption.
        destruct (search client _) as [[[|b bs]|n hits]|e]; cbn [fst];
          rewrite ?mapM_firstSnapshot_pure;
          try destruct (firstSnapshots (b :: bs)); cbn [fst];
          rewrite searches_app, Hs; reflexivity.
      * destruct (jobAttemptIndex <? _) eqn:Elt;
          [|destruct (jobAttemptIndex =? _); left; exact Hs].
        destruct (elasticSearchClient env) as [client|]; [|left; exact Hs].
        right. exists framework, uid. apply Z.ltb_lt in Elt.
        repeat split; try assumption.
        destruct (search client _) as [[bs|n hits]|e]; cbn [fst];
          rewrite searches_app, Hs; reflexivity.
    + cbn. destruct (jobAttemptIndex <? _); [|destruct (jobAttemptIndex =? _)];
        cbn; auto.
  - destruct (Response.status r =? 404); cbn;
      rewrite ?k8sCalls_app, ?searches_app, ?Hk, ?Hs; cbn; auto.
Qed.

End Contacts.

(** ** Replies and failures *)

Section Replies.

Context {S : Type} (convert : Framework -> S) (env : Env).

Local Abbreviation listAttempts := (JobAttempt.list S convert env).
Local Abbreviation getAttempt := (JobAttempt.get S convert env).

(** X7.  Status and data of a reply go together.  A reply of [list] is
    either status 404 with null data, or status 200 with a sequence of at
    least two entries: the live one, marked latest, and at least one from
    history.  A reply of [get] is either status 404 with null data or
    status 200 with an entry. *)
Theorem reply_status_and_data (name : string) (jobAttemptIndex : Z) :
  (forall r,
      snd (run (listAttempts name)) = Return r ->
      (Reply.status r = 404 /\ Reply.data r = None)
      \/ (Reply.status r = 200
          /\ exists live second others,
               Reply.data r = Some (live :: second :: others)
               /\ isLatest live = true /\ isLatest second = false))
  /\ (forall r,
      snd (run (getAttempt name jobAttemptIndex)) = Return r ->
      (Reply.status r = 404 /\ Reply.data r = None)
      \/ (Reply.status r = 200 /\ exists entry, Reply.data r = Some entry)).
Proof.
  split; intros r.
  - rewrite list_run.
    destruct (JobAttempt.getFramework env name []) as [t0 [response|e]]; [|discriminate].
    destruct (Response.status response =? 200).
    + destruct (Response.data response) as [framework|m]; [|discriminate].
      destruct (metadata_uid framework) as [uid|]; [|intros [= <-]; auto].
      destruct (JobAttempt.esSearch env _ t0) as [t1 [[[|b bs]|n hits]|e]];
        try discriminate; try (intros [= <-]; auto).
      rewrite mapM_firstSnapshot_pure.
      destruct (firstSnapshots (b :: bs)) as [ss|e] eqn:E; [|discriminate].
      intros [= <-]. right. split; [reflexivity|].
      apply firstSnapshots_length in E. destruct ss as [|s ss]; [discriminate|].
      eexists _, _, _. repeat split.
    + destruct (Response.status response =? 404); [intros [= <-]; auto | discriminate].
  - rewrite get_run.
    destruct (JobAttempt.getFramework env name []) as [t0 [response|e]]; [|discriminate].
    destruct (Response.status response =? 200).
    + destruct (Response.data response) as [framework|m]; [|discriminate].
      destruct (jobAttemptIndex <? spec_retryPolicy_maxRetryCount framework).
      * destruct (metadata_uid framework) as [uid|]; [|intros [= <-]; auto].
        destruct (JobAttempt.esSearch env _ t0) as [t1 [[bs|n [|hit hits]]|e]];
          try discriminate; intros [= <-]; cbn; eauto.
      * destruct (jobAttemptIndex =? spec_retryPolicy_maxRetryCount framework);
          intros [= <-]; cbn; eauto.
    + destruct (Response.status response =? 404); [intros [= <-]; auto | discriminate].
Qed.

(** X8.  A rejected search is not caught: when the live fetch succeeded
    with an object that has a uid and the client rejects the search,
    [list] throws that rejection, and so does [get] for an index below
    [maxRetryCount]; no reply is made of the live object alone. *)
Theorem search_rejection_is_thrown (name : string) (jobAttemptIndex : Z)
    (framework : Framework) (uid : string) (client : EsClient) (e : JsError.t) :
  fetchedLive env name framework ->
  metadata_uid framework = Some uid ->
  elasticSearchClient env = Some client ->
  (search client (mkParams "framework" (JobAttempt.listBody uid)) = Rejected e ->
   snd (run (listAttempts name)) = Throw (Thrown e))
  /\ (jobAttemptIndex < spec_retryPolicy_maxRetryCount framework ->
      search client (mkParams "framework" (JobAttempt.getBody uid jobAttemptIndex))
      = Rejected e ->
      snd (run (getAttempt name jobAttemptIndex)) = Throw (Thrown e)).
Proof.
  intros H Hu Hc. rewrite list_run, get_run.
  destruct (getFramework_found env _ _ H) as (t0 & -> & _). cbn -[mapM].
  rewrite Hu, !esSearch_run, Hc. split.
  - intros ->. reflexivity.
  - intros Hlt ->. apply Z.ltb_lt in Hlt. rewrite Hlt. reflexivity.
Qed.

(** X9.  [list] makes no partial result: when the search comes back with
    groups of which one has no hit, [list] throws a [TypeError], whatever
    the other groups hold. *)
Theorem list_group_without_hit_throws (name : string) (framework : Framework)
    (uid : string) (client : EsClient) (buckets : list Bucket) :
  fetchedLive env name framework ->
  metadata_uid framework = Some uid ->
  elasticSearchClient env = Some client ->
  search client (mkParams "framework" (JobAttempt.listBody uid))
  = Resolved (TermsResult buckets) ->
  Exists (fun b => bucket_hits b = []) buckets ->
  exists what, snd (run (listAttempts name)) = Throw (TypeError what).
Proof.
  intros H Hu Hc Hq Hex. rewrite list_run.
  destruct (getFramework_found env _ _ H) as (t0 & -> & _). cbn -[mapM].
  rewrite Hu, esSearch_run, Hc, Hq.
  destruct (firstSnapshots_without_hits _ Hex) as (what & Hw).
  destruct buckets as [|b bs]; [inversion Hex|].
  rewrite mapM_firstSnapshot_pure, Hw. exists what. reflexivity.
Qed.

(** X11.  [list] and [get] agree on the live entry: whenever [list]
    replies with a sequence, its first entry is what [get] returns, with
    status 200, for the index equal to the live object's
    [maxRetryCount]. *)
Theorem list_head_is_get_at_bound (name : string) (r : Reply.t (list (Entry S)))
    (live : Entry S) (history : list (Entry S)) :
  snd (run (listAttempts name)) = Return r ->
  Reply.data r = Some (live :: history) ->
  exists framework,
    fetchedLive env name framework
    /\ snd (run (getAttempt name (spec_retryPolicy_maxRetryCount framework)))
       = Return (Reply.mk 200 (Some live)).
Proof.
  rewrite list_run.
  destruct (getFramework_cases env name) as (t0 & res & Hg & _ & _ & Hres).
  rewrite Hg. destruct res as [response|ex]; [|discriminate].
  destruct (Response.status response =? 200) eqn:E200.
  - destruct (Response.data response) as [framework|m] eqn:Ed; [|discriminate].
    pose proof (status_200_framework _ _ E200 Ed) as ->.
    intros Hr Hd. exists framework. split; [exact Hres|].
    rewrite get_run, Hg. cbn. rewrite Z.ltb_irrefl, Z.eqb_refl. cbn.
    destruct (metadata_uid framework) as [uid|]; [|injection Hr as <-; discriminate].
    destruct (JobAttempt.esSearch env _ t0) as [t1 [[[|b bs]|n hits]|e]];
      try discriminate; try (injection Hr as <-; discriminate).
    rewrite mapM_firstSnapshot_pure in Hr.
    destruct (firstSnapshots (b :: bs)) as [ss|e]; [|discriminate].
    injection Hr as <-. cbn in Hd. injection Hd as <- _. reflexivity.
  - destruct (Response.status response =? 404); [|discriminate].
    intros [= <-]. discriminate.
Qed.

End Replies.

(** X10.  A rejection that carries a response counts as that response:
    [list] and [get] end in the same way whether the k8s client resolves
    with a response or rejects with an error that carries it. *)
Theorem rejection_with_response_is_the_response {S : Type} (convert : Framework -> S)
    (env : Env) (k8s : string -> Headers -> Outcome Response.t)
    (name : string) (jobAttemptIndex : Z) (r : Response.t) (e : JsError.t) :
  fetchOutcome env name = Resolved r ->
  fetchOutcome (withK8s env k8s) name = Rejected e ->
  JsError.response e = Some r ->
  snd (run (JobAttempt.list S convert (withK8s env k8s) name))
  = snd (run (JobAttempt.list S convert env name))
  /\ snd (run (JobAttempt.get S convert (withK8s env k8s) name jobAttemptIndex))
     = snd (run (JobAttempt.get S convert env name jobAttemptIndex)).
Proof.
  intros H1 H2 Hr. rewrite !list_run, !get_run.
  assert (F1 : liveResponse (fetchOutcome env name) = Some r) by now rewrite H1.
  assert (F2 : liveResponse (fetchOutcome (withK8s env k8s) name) = Some r)
    by now rewrite H2.
  destruct (getFramework_found env _ _ F1) as (t1 & -> & _).
  destruct (getFramework_found (withK8s env k8s) _ _ F2) as (t2 & -> & _).
  cbn -[mapM].
  destruct (Response.status r =? 200).
  - destruct (Response.data r) as [framework|m]; [|split; reflexivity].
    destruct (metadata_uid framework) as [uid|].
    + rewrite !esSearch_run. cbn [withK8s elasticSearchClient]. split.
      * destruct (elasticSearchClient env) as [client|]; [|reflexivity].
        destruct (search client _) as [[[|b bs]|n hits]|ex]; try reflexivity.
        rewrite !mapM_firstSnapshot_pure.
        destruct (firstSnapshots (b :: bs)); reflexivity.
      * destruct (jobAttemptIndex <? _); [|destruct (jobAttemptIndex =? _); reflexivity].
        destruct (elasticSearchClient env) as [client|]; [|reflexivity].
        destruct (search client _) as [[bs|n hits]|ex]; reflexivity.
    + split; [reflexivity|].
      destruct (jobAttemptIndex <? _); [|destruct (jobAttemptIndex =? _)]; reflexivity.
  - destruct (Response.status r =? 404); split; reflexivity.
Qed.

(** ** [get] and [list] over the historical index *)

Lemma index_get_answer (health : Outcome Z) (docs : list Doc) (uid : string) (id : Z) :
  search (HistoryIndex.client health docs) (mkParams "framework" (JobAttempt.getBody uid id))
  = Resolved
      (FilterResult
         (List.length (HistoryIndex.group (filter (HistoryIndex.hasUid uid) docs) id))
         (HistoryIndex.topHits JobAttempt.latestHits
            (HistoryIndex.group (filter (HistoryIndex.hasUid uid) docs) id))).
Proof. reflexivity. Qed.

(** The hit kept for a non-empty group of a uid is a latest snapshot of
    that attempt. *)
Lemma group_latest (uid : string) (docs : list Doc) (id : Z) :
  HistoryIndex.group (filter (HistoryIndex.hasUid uid) docs) id <> [] ->
  exists d,
    HistoryIndex.topHits JobAttempt.latestHits
      (HistoryIndex.group (filter (HistoryIndex.hasUid uid) docs) id) = [mkHit d]
    /\ isLatestSnapshot uid docs (objectSnapshot d)
    /\ HistoryIndex.attemptOf d = id.
Proof.
  intros Hne. destruct (topHits_latest _ Hne) as (d & Ht & Hin & Hmax).
  apply group_In in Hin. destruct Hin as (Hin & Hid).
  apply filter_In in Hin. destruct Hin as (Hdocs & Huid).
  exists d. split; [exact Ht|]. split; [|exact Hid].
  exists d. repeat split; try assumption.
  intros d' Hd' Hu' Ha'. apply Hmax, group_In. split.
  - apply filter_In. split; assumption.
  - rewrite Ha'. exact Hid.
Qed.

(** Every snapshot read off the buckets of the index is the first hit of
    the group of its own attempt identifier. *)
Lemma firstSnapshots_index (ds : list Doc) (ks : list Z) (snapshots : list Framework) :
  firstSnapshots (map (HistoryIndex.bucketOf JobAttempt.latestHits ds) ks)
  = Return snapshots ->
  Forall (fun s =>
            exists hit others,
              HistoryIndex.topHits JobAttempt.latestHits
                (HistoryIndex.group ds (status_attemptStatus_id s)) = hit :: others
              /\ objectSnapshot (source hit) = s) snapshots.
Proof.
  revert snapshots. induction ks as [|k ks IH]; cbn [map firstSnapshots]; intros ss H.
  - injection H as <-. constructor.
  - cbn [HistoryIndex.bucketOf bucket_hits] in H.
    destruct (HistoryIndex.topHits JobAttempt.latestHits (HistoryIndex.group ds k))
      as [|hit others] eqn:Et; [discriminate|].
    destruct (firstSnapshots _) as [ss'|e]; [|discriminate].
    injection H as <-. constructor; [|exact (IH ss' eq_refl)].
    assert (Hk : status_attemptStatus_id (objectSnapshot (source hit)) = k).
    { assert (Hin : In hit (HistoryIndex.topHits JobAttempt.latestHits
                              (HistoryIndex.group ds k)))
        by (rewrite Et; now left).
      unfold HistoryIndex.topHits in Hin. apply in_map_iff in Hin.
      destruct Hin as (d & <- & Hd).
      assert (Hd' : In d (HistoryIndex.sortBy collectTime Desc (HistoryIndex.group ds k))).
      { rewrite <- (firstn_skipn 1 _). apply in_or_app. left. exact Hd. }
      apply sortBy_In, group_In in Hd'. exact (proj2 Hd'). }
    rewrite Hk. exists hit, others. split; [exact Et | reflexivity].
Qed.

Section OverIndex.

Context {S : Type} (convert : Framework -> S) (env : Env).

Local Abbreviation listAttempts := (JobAttempt.list S convert env).
Local Abbreviation getAttempt := (JobAttempt.get S convert env).

(** X12.  Over the historical index, [get] below [maxRetryCount] returns
    the most recently collected snapshot of the requested attempt of the
    live object's uid, with [isLatest = false], when the index holds one,
    and status 404 when it holds none. *)
Theorem get_returns_latest_snapshot (name : string) (jobAttemptIndex : Z)
    (framework : Framework) (uid : string) (health : Outcome Z) (docs : list Doc) :
  fetchedLive env name framework ->
  metadata_uid framework = Some uid ->
  elasticSearchClient env = Some (HistoryIndex.client health docs) ->
  jobAttemptIndex < spec_retryPolicy_maxRetryCount framework ->
  ((forall d, In d docs -> HistoryIndex.hasUid uid d = true ->
              HistoryIndex.attemptOf d <> jobAttemptIndex) ->
   snd (run (getAttempt name jobAttemptIndex)) = Return (Reply.mk 404 None))
  /\ ((exists d, In d docs /\ HistoryIndex.hasUid uid d = true
                 /\ HistoryIndex.attemptOf d = jobAttemptIndex) ->
      exists snapshot,
        snd (run (getAttempt name jobAttemptIndex))
        = Return (Reply.mk 200 (Some (historyEntry convert snapshot)))
        /\ isLatestSnapshot uid docs snapshot
        /\ status_attemptStatus_id snapshot = jobAttemptIndex).
Proof.
  intros H Hu Hc Hlt. rewrite get_run.
  destruct (getFramework_found env _ _ H) as (t0 & -> & _). cbn.
  apply Z.ltb_lt in Hlt. rewrite Hlt, Hu, esSearch_run, Hc, index_get_answer.
  split.
  - intros Hno.
    destruct (HistoryIndex.group (filter (HistoryIndex.hasUid uid) docs) jobAttemptIndex)
      as [|d ds] eqn:Eg; [reflexivity|].
    assert (Hin : In d (HistoryIndex.group (filter (HistoryIndex.hasUid uid) docs)
                          jobAttemptIndex)) by (rewrite Eg; now left).
    apply group_In in Hin. destruct Hin as (Hin & Hid).
    apply filter_In in Hin. destruct Hin as (Hd & Hud).
    destruct (Hno d Hd Hud Hid).
  - intros (d & Hd & Hud & Hid).
    destruct (group_latest uid docs jobAttemptIndex) as (d0 & -> & Hl & Hid0).
    + intros E.
      assert (Hin : In d (HistoryIndex.group (filter (HistoryIndex.hasUid uid) docs)
                            jobAttemptIndex)).
      { apply group_In. split; [apply filter_In; split; assumption | exact Hid]. }
      rewrite E in Hin. exact Hin.
    + exists (objectSnapshot d0). repeat split; assumption.
Qed.

(** X13.  Over the historical index, [list] and [get] agree on history:
    every entry that [list] returns after the first is made of a snapshot
    and, when that snapshot's attempt identifier is below the live
    object's [maxRetryCount], [get] for that identifier returns the same
    entry with status 200. *)
Theorem list_history_agrees_with_get (name : string) (framework : Framework)
    (uid : string) (health : Outcome Z) (docs : list Doc)
    (r : Reply.t (list (Entry S))) (live : Entry S) (history : list (Entry S)) :
  fetchedLive env name framework ->
  metadata_uid framework = Some uid ->
  elasticSearchClient env = Some (HistoryIndex.client health docs) ->
  snd (run (listAttempts name)) = Return r ->
  Reply.data r = Some (live :: history) ->
  Forall (fun entry =>
            exists snapshot,
              entry = historyEntry convert snapshot
              /\ (status_attemptStatus_id snapshot
                  < spec_retryPolicy_maxRetryCount framework ->
                  snd (run (getAttempt name (status_attemptStatus_id snapshot)))
                  = Return (Reply.mk 200 (Some entry)))) history.
Proof.
  intros H Hu Hc Hr Hd. rewrite list_run in Hr.
  destruct (getFramework_found env _ _ H) as (t0 & Hg & _). rewrite Hg in Hr.
  cbn -[mapM] in Hr. rewrite Hu, esSearch_run, Hc, index_list_answer in Hr.
  destruct (HistoryIndex.keys Desc (filter (HistoryIndex.hasUid uid) docs))
    as [|k ks]; cbn [map] in Hr; [injection Hr as <-; discriminate|].
  rewrite mapM_firstSnapshot_pure in Hr.
  change (HistoryIndex.bucketOf JobAttempt.latestHits
            (filter (HistoryIndex.hasUid uid) docs) k
          :: map (HistoryIndex.bucketOf JobAttempt.latestHits
                    (filter (HistoryIndex.hasUid uid) docs)) ks)
    with (map (HistoryIndex.bucketOf JobAttempt.latestHits
                 (filter (HistoryIndex.hasUid uid) docs)) (k :: ks)) in Hr.
  destruct (firstSnapshots _) as [ss|e] eqn:Ef; [|discriminate].
  injection Hr as <-. cbn in Hd. injection Hd as _ <-.
  apply firstSnapshots_index in Ef.
  apply Forall_forall. intros entry He. apply in_map_iff in He.
  destruct He as (s & <- & Hs). exists s. split; [reflexivity|].
  rewrite Forall_forall in Ef. destruct (Ef s Hs) as (hit & others & Et & Eo).
  intros Hlt. rewrite get_run, Hg. cbn.
  apply Z.ltb_lt in Hlt. rewrite Hlt, Hu, esSearch_run, Hc, index_get_answer, Et.
  cbn. rewrite Eo. reflexivity.
Qed.

End OverIndex.

(** ** Sample runs of the further properties *)

Lemma search_rejection_is_thrown_witness :
  snd (run (JobAttempt.list Framework (fun f => f) Sample3.slowIndex "alice~job"))
  = Throw (Thrown Sample3.timeout)
  /\ snd (run (JobAttempt.get Framework (fun f => f) Sample3.slowIndex "alice~job" 1))
     = Throw (Thrown Sample3.timeout).
Proof.
  assert (F : fetchedLive Sample3.slowIndex "alice~job" Sample.live)
    by (vm_compute; reflexivity).
  destruct (search_rejection_is_thrown (fun f => f) Sample3.slowIndex "alice~job" 1
              Sample.live "uid-1" _ Sample3.timeout F eq_refl eq_refl) as (HL & HG).
  split; [exact (HL eq_refl) | exact (HG ltac:(cbn; lia) eq_refl)].
Defined.

Lemma list_group_without_hit_throws_witness :
  exists what,
    snd (run (JobAttempt.list Framework (fun f => f) Sample3.oddIndex "alice~job"))
    = Throw (TypeError what).
Proof.
  assert (F : fetchedLive Sample3.oddIndex "alice~job" Sample.live)
    by (vm_compute; reflexivity).
  refine (list_group_without_hit_throws (fun f => f) Sample3.oddIndex "alice~job"
            Sample.live "uid-1" _ Sample3.oddBuckets F eq_refl eq_refl eq_refl _).
  apply Exists_cons_tl, Exists_cons_hd. reflexivity.
Defined.

Lemma rejection_with_response_is_the_response_witness :
  snd (run (JobAttempt.list Framework (fun f => f)
              (withK8s Sample2.k8s (Sample.k8s (Rejected Sample3.rejected200)))
              "alice~job"))
  = snd (run (JobAttempt.list Framework (fun f => f) Sample2.k8s "alice~job")).
Proof.
  refine (proj1 (rejection_with_response_is_the_response (fun f => f) Sample2.k8s
                   (Sample.k8s (Rejected Sample3.rejected200)) "alice~job" 1
                   (Response.mk 200 (FrameworkBody Sample.live)) Sample3.rejected200
                   _ _ eq_refl)); vm_compute; reflexivity.
Defined.

Lemma list_head_is_get_at_bound_witness :
  exists framework,
    fetchedLive Sample2.k8s "alice~job" framework
    /\ snd (run (JobAttempt.get Framework (fun f => f) Sample2.k8s "alice~job"
                   (spec_retryPolicy_maxRetryCount framework)))
       = Return (Reply.mk 200 (Some (mkEntry Sample.live true))).
Proof.
  refine (list_head_is_get_at_bound (fun f => f) Sample2.k8s "alice~job"
            (Reply.mk 200
               (Some [ mkEntry Sample.live true;
                       mkEntry (Sample.snapshot 1 "attempt 1, final") false;
                       mkEntry (Sample.snapshot 0 "attempt 0, final") false ]))
            _ _ _ eq_refl).
  vm_compute. reflexivity.
Defined.

Lemma get_returns_latest_snapshot_witness :
  snd (run (JobAttempt.get Framework (fun f => f) Sample2.k8s "alice~job" 2))
  = Return (Reply.mk 404 None)
  /\ exists snapshot,
       snd (run (JobAttempt.get Framework (fun f => f) Sample2.k8s "alice~job" 1))
       = Return (Reply.mk 200 (Some (historyEntry (fun f => f) snapshot)))
       /\ status_attemptStatus_id snapshot = 1.
Proof.
  assert (F : fetchedLive Sample2.k8s "alice~job" Sample.live) by (vm_compute; reflexivity).
  split.
  - refine (proj1 (get_returns_latest_snapshot (fun f => f) Sample2.k8s "alice~job" 2
                     Sample.live "uid-1" (Resolved 200) Sample.docs
                     F eq_refl eq_refl ltac:(cbn; lia)) _).
    intros d Hd Hu. cbn in Hd.
    repeat (destruct Hd as [<- | Hd]; [cbn; try lia; cbn in Hu; discriminate|]).
    destruct Hd.
  - destruct (proj2 (get_returns_latest_snapshot (fun f => f) Sample2.k8s "alice~job" 1
                       Sample.live "uid-1" (Resolved 200) Sample.docs
                       F eq_refl eq_refl ltac:(cbn; lia)))
      as (s & Hs & _ & Hid).
    + exists (mkDoc 205 (Sample.snapshot 1 "attempt 1, final")).
      repeat split. cbn. auto.
    + exists s. split; assumption.
Defined.

Lemma list_history_agrees_with_get_witness :
  Forall (fun entry =>
            exists snapshot,
              entry = historyEntry (fun f => f) snapshot
              /\ (status_attemptStatus_id snapshot < 3 ->
                  snd (run (JobAttempt.get Framework (fun f => f) Sample2.k8s "alice~job"
                              (status_attemptStatus_id snapshot)))
                  = Return (Reply.mk 200 (Some entry))))
    [ mkEntry (Sample.snapshot 1 "attempt 1, final") false;
      mkEntry (Sample.snapshot 0 "attempt 0, final") false ].
Proof.
  assert (F : fetchedLive Sample2.k8s "alice~job" Sample.live) by (vm_compute; reflexivity).
  refine (list_history_agrees_with_get (fun f => f) Sample2.k8s "alice~job" Sample.live
            "uid-1" (Resolved 200) Sample.docs
            (Reply.mk 200
               (Some [ mkEntry Sample.live true;
                       mkEntry (Sample.snapshot 1 "attempt 1, final") false;
                       mkEntry (Sample.snapshot 0 "attempt 0, final") false ]))
            _ _ F eq_refl eq_refl _ eq_refl).
  vm_compute. reflexivity.
Defined.

(** * The template import page *)

Example sample_template_converted :
  TemplateImport.restApi2JsonEditor SampleTemplate.template
  = Return
      (JObj [ ("data", JArr [ SampleTemplate.item "data" "cifar10";
                              SampleTemplate.item "data" "mnist" ]);
              ("script", JArr [SampleTemplate.item "script" "train"]);
              ("docker", JArr [SampleTemplate.item "dockerimage" "tf"]);
              ("job", SampleTemplate.convertedJob) ],
       JObj [ ("job", SampleTemplate.convertedJob);
              ("prerequisites",
               JArr [ SampleTemplate.item "dockerimage" "tf";
                      SampleTemplate.item "data" "cifar10";
                      SampleTemplate.item "model" "resnet";
                      SampleTemplate.item "script" "train";
                      SampleTemplate.item "data" "mnist" ]) ]).
Proof. vm_compute. reflexivity. Qed.

(** ** Objects *)

Section Objects.

Import Js.

Lemma lookup_setKey_same (k : string) (v : json) (props : list (string * json)) :
  lookup k (setKey k v props) = v.
Proof.
  induction props as [|[k' v'] props IH]; cbn.
  - now rewrite String.eqb_refl.
  - destruct (String.eqb k k') eqn:E; cbn; rewrite ?String.eqb_refl, ?E; auto.
Qed.

Lemma lookup_setKey_other (k k' : string) (v : json) (props : list (string * json)) :
  k' <> k -> lookup k' (setKey k v props) = lookup k' props.
Proof.
  intros Hne. induction props as [|[k0 v0] props IH]; cbn.
  - apply String.eqb_neq in Hne. now rewrite Hne.
  - destruct (String.eqb k k0) eqn:E; cbn.
    + apply String.eqb_eq in E. subst k0.
      apply String.eqb_neq in Hne. now rewrite Hne.
    + now rewrite IH.
Qed.

Lemma keys_setKey (k : string) (v : json) (props : list (string * json)) :
  hasKey k props = true -> map fst (setKey k v props) = map fst props.
Proof.
  induction props as [|[k0 v0] props IH]; cbn; [discriminate|].
  destruct (String.eqb k k0) eqn:E; cbn.
  - intros _. apply String.eqb_eq in E. now subst.
  - intros H. now rewrite IH.
Qed.

Lemma hasKey_In (k : string) (props : list (string * json)) :
  hasKey k props = true <-> In k (map fst props).
Proof.
  unfold hasKey. rewrite existsb_exists, in_map_iff. split.
  - intros (p & Hp & E). apply String.eqb_eq in E. exists p. auto.
  - intros (p & E & Hp). exists p. split; [exact Hp|]. apply String.eqb_eq. auto.
Qed.

Lemma lookup_absent (k : string) (props : list (string * json)) :
  ~ In k (map fst props) -> lookup k props = JUndefined.
Proof.
  induction props as [|[k0 v0] props IH]; cbn; [reflexivity|].
  intros H. destruct (String.eqb_spec k k0) as [-> | _]; [tauto|].
  apply IH. tauto.
Qed.

(** With distinct keys, an object's entries are its properties. *)
Lemma entries_of_distinct_keys (props : list (string * json)) :
  NoDup (map fst props) ->
  map (fun k => (k, lookup k props)) (map fst props) = props.
Proof.
  induction props as [|[k v] props IH]; cbn; [reflexivity|].
  intros Hn. inversion Hn as [|k' ks Hk Hn']; subst.
  rewrite String.eqb_refl. f_equal.
  rewrite <- (IH Hn') at 2. apply map_ext_in. intros k' Hk'.
  destruct (String.eqb_spec k' k) as [-> | _]; [tauto | reflexivity].
Qed.

Lemma entries_of_array (items : list json) :
  map snd (combine (map indexKey (seq 0 (List.length items))) items) = items.
Proof.
  generalize 0%nat. induction items as [|x items IH]; intros n; cbn;
    [reflexivity | now rewrite IH].
Qed.

End Objects.

(** ** [restApi2JsonEditor] *)

Section Conversion.

Import Js.

Lemma pushByType_filters (type item : json) (acc : TemplateImport.Sorted3) :
  get item "type" = Return type ->
  let r := TemplateImport.pushByType type item acc in
  TemplateImport.dataItems r
  = TemplateImport.dataItems acc ++ filter (typeIs "data") [item]
  /\ TemplateImport.scriptItems r
     = TemplateImport.scriptItems acc ++ filter (typeIs "script") [item]
  /\ TemplateImport.dockerItems r
     = TemplateImport.dockerItems acc ++ filter (typeIs "dockerimage") [item].
Proof.
  intros Hg. cbn zeta.
  assert (T : forall t, typeIs t item
                        = match type with JStr s => String.eqb s t | _ => false end).
  { intros t. destruct item; cbn in Hg; try discriminate;
      injection Hg as <-; reflexivity. }
  cbn [filter]. rewrite !T. unfold TemplateImport.pushByType.
  destruct type as [| |b|q|s|items|props]; cbn; rewrite ?app_nil_r; auto.
  destruct (String.eqb_spec s "data") as [-> | _]; [cbn; rewrite ?app_nil_r; auto|].
  destruct (String.eqb_spec s "script") as [-> | _]; [cbn; rewrite ?app_nil_r; auto|].
  destruct (String.eqb_spec s "dockerimage") as [-> | _]; cbn; rewrite ?app_nil_r; auto.
Qed.

Lemma sortItems_filters (entries : list (string * json)) (acc r : TemplateImport.Sorted3) :
  TemplateImport.sortItems entries acc = Return r ->
  TemplateImport.dataItems r
  = TemplateImport.dataItems acc ++ filter (typeIs "data") (map snd entries)
  /\ TemplateImport.scriptItems r
     = TemplateImport.scriptItems acc ++ filter (typeIs "script") (map snd entries)
  /\ TemplateImport.dockerItems r
     = TemplateImport.dockerItems acc ++ filter (typeIs "dockerimage") (map snd entries).
Proof.
  revert acc. induction entries as [|[k item] entries IH]; intros acc H.
  - cbn in H. injection H as <-. cbn. rewrite !app_nil_r. auto.
  - cbn [TemplateImport.sortItems] in H. unfold andThen in H.
    destruct (get item "type") as [type|e] eqn:Eg; [|discriminate].
    destruct (IH _ H) as (H1 & H2 & H3).
    destruct (pushByType_filters type item acc Eg) as (P1 & P2 & P3).
    rewrite H1, H2, H3, P1, P2, P3, <- !app_assoc.
    cbn [map snd]. change (item :: map snd entries) with ([item] ++ map snd entries).
    rewrite !filter_app. auto.
Qed.

(** X14.  When the call succeeds on a response with prerequisites, the
    lists 'data', 'script' and 'docker' of the result are the
    prerequisites whose type is 'data', 'script' and 'dockerimage', each in
    the order of the response; a prerequisite of any other type, or of
    none, is in no list. *)
Theorem restApi2JsonEditor_sorts_prerequisites (props : list (string * json))
    (entries : list (string * json)) (res after : json) :
  TemplateImport.restApi2JsonEditor (JObj props) = Return (res, after) ->
  hasKey "prerequisites" props = true ->
  entriesOf (lookup "prerequisites" props) = Return entries ->
  get res "data" = Return (JArr (filter (typeIs "data") (map snd entries)))
  /\ get res "script" = Return (JArr (filter (typeIs "script") (map snd entries)))
  /\ get res "docker" = Return (JArr (filter (typeIs "dockerimage") (map snd entries))).
Proof.
  unfold TemplateImport.restApi2JsonEditor. intros H Hk He.
  destruct (TemplateImport.convertJob (JObj props)) as [job|e]; [|discriminate].
  cbn [andThen] in H.
  unfold TemplateImport.sortPrerequisites in H. cbn [inOperator andThen get] in H.
  rewrite Hk, He in H. cbn [andThen] in H.
  destruct (TemplateImport.sortItems entries _) as [sorted|e] eqn:Es; [|discriminate].
  injection H as <- _.
  destruct (sortItems_filters _ _ _ Es) as (H1 & H2 & H3). cbn in H1, H2, H3.
  cbn. rewrite H1, H2, H3. auto.
Qed.

Lemma restApi2JsonEditor_sorts_prerequisites_witness :
  exists res after,
    TemplateImport.restApi2JsonEditor SampleTemplate.template = Return (res, after)
    /\ get res "data"
       = Return (JArr [ SampleTemplate.item "data" "cifar10";
                        SampleTemplate.item "data" "mnist" ])
    /\ get res "docker" = Return (JArr [SampleTemplate.item "dockerimage" "tf"]).
Proof.
  eexists _, _. split; [vm_compute; reflexivity|].
  pose proof (restApi2JsonEditor_sorts_prerequisites _ _ _ _
                (eq_refl : TemplateImport.restApi2JsonEditor SampleTemplate.template
                           = Return _)
                eq_refl eq_refl) as (H1 & _ & H3).
  split; [exact H1 | exact H3].
Defined.

End Conversion.

Section Tasks.

Import Js.

Lemma convertTask_fields (key : string) (task converted : json) :
  TemplateImport.convertTask key task = Return converted ->
  convertedFrom key task converted.
Proof.
  unfold TemplateImport.convertTask, convertedFrom, andThen.
  destruct (get task "data") as [data|e]; [|discriminate].
  destruct (TemplateImport.perInstance task "cpu") as [cpu|e]; [|discriminate].
  destruct (get task "script") as [script|e]; [|discriminate].
  destruct (TemplateImport.perInstance task "gpu") as [gpu|e]; [|discriminate].
  destruct (get task "dockerimage") as [dockerimage|e]; [|discriminate].
  destruct (TemplateImport.perInstance task "memoryMB") as [memoryMB|e]; [|discriminate].
  destruct (get task "env") as [env|e]; [|discriminate].
  destruct (get task "command") as [command|e]; [|discriminate].
  intros [= <-]. repeat split.
Qed.

Lemma convertTasks_each (entries : list (string * json)) (tasks : list json) :
  TemplateImport.convertTasks entries = Return tasks ->
  Forall2 (fun entry converted => convertedFrom (fst entry) (snd entry) converted)
    entries tasks.
Proof.
  revert tasks. induction entries as [|[k task] entries IH]; cbn; intros tasks H.
  - injection H as <-. constructor.
  - unfold andThen in H.
    destruct (TemplateImport.convertTask k task) as [c|e] eqn:Ec; [|discriminate].
    destruct (TemplateImport.convertTasks entries) as [cs|e]; [|discriminate].
    injection H as <-. constructor; [exact (convertTask_fields _ _ _ Ec)|].
    exact (IH cs eq_refl).
Qed.

(** Whatever stops the conversion is a [TypeError]. *)
Lemma get_throws (v : json) (k : string) (e : Exn) :
  get v k = Throw e -> exists what, e = TypeError what.
Proof. destruct v; cbn; intros [= <-]; eexists; reflexivity. Qed.

Lemma perInstance_throws (task : json) (k : string) (e : Exn) :
  TemplateImport.perInstance task k = Throw e -> exists what, e = TypeError what.
Proof.
  unfold TemplateImport.perInstance, andThen.
  destruct (get task "resource") as [r|e1] eqn:E1; [|intros [= <-]; eauto using get_throws].
  destruct (get r "resoucePerInstance") as [p|e2] eqn:E2;
    [|intros [= <-]; eauto using get_throws].
  eauto using get_throws.
Qed.

Lemma convertTask_throws (key : string) (task : json) (e : Exn) :
  TemplateImport.convertTask key task = Throw e -> exists what, e = TypeError what.
Proof.
  unfold TemplateImport.convertTask, andThen.
  repeat match goal with
         | |- context [match get ?v ?k with _ => _ end] =>
             let E := fresh "E" in
             destruct (get v k) eqn:E; [|intros [= <-]; eauto using get_throws]
         | |- context [match TemplateImport.perInstance ?v ?k with _ => _ end] =>
             let E := fresh "E" in
             destruct (TemplateImport.perInstance v k) eqn:E;
             [|intros [= <-]; eauto using perInstance_throws]
         end.
  discriminate.
Qed.

Lemma convertTasks_stops (entries : list (string * json)) (key : string) (task : json)
    (what : string) :
  In (key, task) entries ->
  TemplateImport.convertTask key task = Throw (TypeError what) ->
  exists what', TemplateImport.convertTasks entries = Throw (TypeError what').
Proof.
  intros Hin Ht. induction entries as [|[k t] entries IH]; [destruct Hin|].
  cbn. unfold andThen.
  destruct (TemplateImport.convertTask k t) as [c|e] eqn:Ec.
  - destruct Hin as [[= -> ->] | Hin]; [congruence|].
    destruct (IH Hin) as (w & ->). eauto.
  - destruct (convertTask_throws _ _ _ Ec) as (w & ->). eauto.
Qed.

(** X15.  When the call succeeds on a response whose job has its tasks
    in an object, the job of the result has an array of tasks instead:
    one task for each role of the object, in the order of its keys, with
    the key as 'role', with 'instances' equal to 1 whatever the response
    says, with 'data', 'script', 'dockerimage', 'env' and 'command' as the
    task has them, and with 'cpu', 'gpu' and 'memoryMB' as read from the
    task's [resource.resoucePerInstance]. *)
Theorem restApi2JsonEditor_converts_tasks (props dprops tprops : list (string * json))
    (res after : json) :
  TemplateImport.restApi2JsonEditor (JObj props) = Return (res, after) ->
  hasKey "job" props = true ->
  lookup "job" props = JObj dprops ->
  lookup "tasks" dprops = JObj tprops ->
  NoDup (map fst tprops) ->
  exists job tasks,
    get res "job" = Return (JObj job)
    /\ lookup "tasks" job = JArr tasks
    /\ Forall2 (fun entry converted => convertedFrom (fst entry) (snd entry) converted)
         tprops tasks.
Proof.
  unfold TemplateImport.restApi2JsonEditor, TemplateImport.convertJob.
  intros H Hk Hd Ht Hn. cbn [inOperator andThen get] in H.
  rewrite Hk, Hd, Ht in H. cbn [entriesOf andThen] in H.
  rewrite (entries_of_distinct_keys _ Hn) in H.
  destruct (TemplateImport.convertTasks tprops) as [tasks|e] eqn:Ec; [|discriminate].
  cbn [andThen] in H.
  destruct (TemplateImport.sortPrerequisites (JObj props)) as [sorted|e]; [|discriminate].
  injection H as <- _.
  exists (setKey "tasks" (JArr tasks) dprops), tasks.
  split; [reflexivity|]. split; [apply lookup_setKey_same|].
  exact (convertTasks_each _ _ Ec).
Qed.

(** X16.  When the call succeeds on a response with a job, the job is
    changed in place and shared: the job of the result is the job that
    [data] holds afterwards; it has the keys of the job of the response in
    their order, and apart from 'tasks' every property is as it was.
    Apart from 'job', [data] is as it was. *)
Theorem restApi2JsonEditor_keeps_the_job (props dprops : list (string * json))
    (res after : json) :
  TemplateImport.restApi2JsonEditor (JObj props) = Return (res, after) ->
  hasKey "job" props = true ->
  lookup "job" props = JObj dprops ->
  exists job afterProps,
    get res "job" = Return (JObj job)
    /\ after = JObj afterProps
    /\ lookup "job" afterProps = JObj job
    /\ map fst afterProps = map fst props
    /\ (forall k, k <> "job" -> lookup k afterProps = lookup k props)
    /\ map fst job = map fst dprops
    /\ (forall k, k <> "tasks" -> lookup k job = lookup k dprops).
Proof.
  unfold TemplateImport.restApi2JsonEditor, TemplateImport.convertJob.
  intros H Hk Hd. cbn [inOperator andThen get] in H.
  rewrite Hk, Hd in H. unfold andThen at 2 in H.
  destruct (entriesOf (lookup "tasks" dprops)) as [entries|e] eqn:Ee; [|discriminate].
  unfold andThen at 2 in H.
  destruct (TemplateImport.convertTasks entries) as [tasks|e]; [|discriminate].
  cbn [andThen] in H.
  destruct (TemplateImport.sortPrerequisites (JObj props)) as [sorted|e]; [|discriminate].
  injection H as <- <-.
  assert (Ht : hasKey "tasks" dprops = true).
  { apply hasKey_In.
    destruct (in_dec string_dec "tasks" (map fst dprops)) as [Hin | Hout]; [exact Hin|].
    rewrite (lookup_absent _ _ Hout) in Ee. discriminate. }
  exists (setKey "tasks" (JArr tasks) dprops),
         (setKey "job" (JObj (setKey "tasks" (JArr tasks) dprops)) props).
  split; [reflexivity|]. split; [reflexivity|].
  split; [apply lookup_setKey_same|].
  split; [apply keys_setKey, Hk|].
  split; [intros k Hne; apply lookup_setKey_other, Hne|].
  split; [apply keys_setKey, Ht|].
  intros k Hne. apply lookup_setKey_other, Hne.
Qed.

(** X17.  A task whose resource has no property 'resoucePerInstance'
    (the key as the code spells it) stops the call: with such a task among
    the tasks of the job, the call throws a [TypeError] and returns
    nothing. *)
Theorem restApi2JsonEditor_needs_resoucePerInstance
    (props dprops tprops taskProps resourceProps : list (string * json)) (role : string) :
  hasKey "job" props = true ->
  lookup "job" props = JObj dprops ->
  lookup "tasks" dprops = JObj tprops ->
  NoDup (map fst tprops) ->
  In (role, JObj taskProps) tprops ->
  lookup "resource" taskProps = JObj resourceProps ->
  hasKey "resoucePerInstance" resourceProps = false ->
  exists what, TemplateImport.restApi2JsonEditor (JObj props) = Throw (TypeError what).
Proof.
  intros Hk Hd Ht Hn Hin Hr Hp.
  assert (Hc : exists what,
             TemplateImport.convertTask role (JObj taskProps) = Throw (TypeError what)).
  { unfold TemplateImport.convertTask, TemplateImport.perInstance. cbn [get andThen].
    rewrite Hr. cbn [get andThen].
    rewrite lookup_absent; [cbn; eauto|].
    intros Hin'. apply hasKey_In in Hin'. congruence. }
  destruct Hc as (what & Hc).
  destruct (convertTasks_stops _ _ _ _ Hin Hc) as (what' & Hs).
  unfold TemplateImport.restApi2JsonEditor, TemplateImport.convertJob.
  cbn [inOperator andThen get]. rewrite Hk, Hd, Ht. cbn [entriesOf andThen].
  rewrite (entries_of_distinct_keys _ Hn), Hs. cbn. eauto.
Qed.

(** X18.  A response that is an object with neither 'job' nor
    'prerequisites' gives three empty lists and no job, and is left as it
    is; a response that is null, a boolean, a number or a string makes the
    call throw a [TypeError]. *)
Theorem restApi2JsonEditor_without_content (data : json) :
  (forall props,
      data = JObj props ->
      hasKey "job" props = false ->
      hasKey "prerequisites" props = false ->
      TemplateImport.restApi2JsonEditor data
      = Return (JObj [("data", JArr []); ("script", JArr []); ("docker", JArr [])], data))
  /\ ((forall props, data <> JObj props) ->
      (forall items, data <> JArr items) ->
      exists what, TemplateImport.restApi2JsonEditor data = Throw (TypeError what)).
Proof.
  split.
  - intros props -> Hj Hp.
    unfold TemplateImport.restApi2JsonEditor, TemplateImport.convertJob,
      TemplateImport.sortPrerequisites.
    cbn [inOperator andThen]. rewrite Hj, Hp. reflexivity.
  - intros Ho Ha.
    destruct data as [| |b|q|s|items|props]; try (eexists; reflexivity).
    + destruct (Ha items eq_refl).
    + destruct (Ho props eq_refl).
Qed.

End Tasks.

Lemma restApi2JsonEditor_converts_tasks_witness :
  exists job tasks,
    Js.lookup "tasks" job = JArr tasks
    /\ Forall2 (fun entry converted => convertedFrom (fst entry) (snd entry) converted)
         [("worker", SampleTemplate.worker)] tasks.
Proof.
  destruct (restApi2JsonEditor_converts_tasks SampleTemplate.templateProps
              SampleTemplate.jobProps [("worker", SampleTemplate.worker)] _ _
              (eq_refl : TemplateImport.restApi2JsonEditor SampleTemplate.template
                         = Return (_, _))
              eq_refl eq_refl eq_refl) as (job & tasks & _ & H1 & H2).
  - repeat constructor. cbn. tauto.
  - exists job, tasks. split; assumption.
Defined.

Lemma restApi2JsonEditor_keeps_the_job_witness :
  exists job afterProps,
    Js.lookup "job" afterProps = JObj job
    /\ map fst job = ["name"; "tasks"; "version"]
    /\ Js.lookup "version" job = JStr "1.0".
Proof.
  destruct (restApi2JsonEditor_keeps_the_job SampleTemplate.templateProps
              SampleTemplate.jobProps _ _
              (eq_refl : TemplateImport.restApi2JsonEditor SampleTemplate.template
                         = Return (_, _))
              eq_refl eq_refl) as (job & ap & _ & _ & H1 & _ & _ & H2 & H3).
  exists job, ap. split; [exact H1|]. split; [exact H2|].
  apply H3. discriminate.
Defined.

Lemma restApi2JsonEditor_needs_resoucePerInstance_witness :
  exists what,
    TemplateImport.restApi2JsonEditor (JObj SampleTemplate.mixedProps)
    = Throw (TypeError what).
Proof.
  eapply (restApi2JsonEditor_needs_resoucePerInstance SampleTemplate.mixedProps
            [("tasks", JObj SampleTemplate.mixedTasks)] SampleTemplate.mixedTasks
            _ _ "ps" eq_refl eq_refl eq_refl).
  - repeat constructor; cbn; intuition discriminate.
  - right. left. reflexivity.
  - reflexivity.
  - reflexivity.
Defined.

Lemma restApi2JsonEditor_without_content_witness :
  TemplateImport.restApi2JsonEditor (JObj [("name", JStr "demo")])
  = Return (JObj [("data", JArr []); ("script", JArr []); ("docker", JArr [])],
            JObj [("name", JStr "demo")])
  /\ exists what, TemplateImport.restApi2JsonEditor JNull = Throw (TypeError what).
Proof.
  split.
  - exact (proj1 (restApi2JsonEditor_without_content (JObj [("name", JStr "demo")]))
             _ eq_refl eq_refl eq_refl).
  - apply (proj2 (restApi2JsonEditor_without_content JNull)); discriminate.
Defined.

(** ** [isValidJson] *)

Lemma removeFirst_leading (rest : string) :
  TemplateImport.removeFirst "root." ("root." ++ rest)%string = rest.
Proof. destruct rest; reflexivity. Qed.

